(** * Tag and device-registration clients of the Aviatrix provider

    A shallow embedding of [goaviatrix/tags.go] (the tag client) and of
    the device-registration resource (create / read / update / delete
    handlers), with the controller they talk to kept abstract.

    Conventions.
    - Go [string] is [string]; Go [int] is [Z] (no arithmetic is done on
      the integers of these files, they are only rendered or stored).
    - A Go [map[string]T] is a [gmap string T]; a nil map and an empty
      map are identified, since the code only looks keys up and ranges.
    - A Go slice is an [option (list _)]: [None] is the nil slice.
    - A Go [error] result is an [option error]: [None] is nil.
    - A method with a pointer receiver or a pointer argument that it
      mutates returns the mutated value next to its result.
    - Every call that reaches the controller is recorded in a trace. *)

From Stdlib Require Import Ascii.
From stdpp Require Import gmap strings list fin_maps pretty.


(** ** Errors *)

(** The error kinds of the client library, and the errors built by
    [fmt.Errorf] in the resource handlers.  [ErrNotFound] is the
    sentinel [goaviatrix.ErrNotFound]; being a constructor of its own,
    it is equal to nothing but itself, as the Go pointer comparison
    [err == goaviatrix.ErrNotFound] has it. *)
Inductive error : Type :=
| ErrNotFound
| APIError (reason : string)
| TransportError (msg : string)
| Errorf (msg : string).

#[global] Instance error_eq_dec : EqDecision error.
Proof. solve_decision. Defined.

(** ** Go runtime helpers *)

(** [strconv.Itoa]: the base-10 rendering of an integer, with a leading
    minus sign for negative numbers. *)
Definition Itoa (n : Z) : string := pretty n.

(** [append(s, x)] on a possibly nil slice. *)
Definition append {A : Type} (s : option (list A)) (x : A) : option (list A) :=
  match s with
  | None => Some [x]
  | Some l => Some (l ++ [x])
  end.

(** The elements of a slice; the nil slice has none. *)
Definition elems {A : Type} (s : option (list A)) : list A :=
  match s with
  | None => []
  | Some l => l
  end.

(** The number a decimal numeral denotes: digits read left to right in
    base 10, after an optional minus sign. *)
Definition digit_value (a : ascii) : option N :=
  let n := N_of_ascii a in
  if decide (48 ≤ n ≤ 57)%N then Some (n - 48)%N else None.

Fixpoint read_digits (s : string) (acc : N) : option N :=
  match s with
  | EmptyString => Some acc
  | String a s' =>
      match digit_value a with
      | Some v => read_digits s' (10 * acc + v)%N
      | None => None
      end
  end.

Definition decimal_value (s : string) : option Z :=
  match s with
  | EmptyString => None
  | String a s' =>
      if decide (a = "-"%char)
      then (λ n, (- Z.of_N n)%Z) <$> read_digits s' 0
      else Z.of_N <$> read_digits s 0
  end.

(** ** Data model of [goaviatrix] *)

Module Client.
(** Of the client, the files read the session token only. *)
Record t : Type := mk { CID : string }.
End Client.

Module Tags.
Record t : Type := mk {
  Action : string;
  CID : string;
  CloudType : Z;
  ResourceType : string;
  ResourceName : string;
  TagList : string;
  Tags : gmap string string;
  TagJson : string
}.

#[global] Instance eq_dec : EqDecision t.
Proof. solve_decision. Defined.

(** [tags.CID = cid] *)
Definition set_CID (cid : string) (x : t) : t :=
  {| Action := Action x; CID := cid; CloudType := CloudType x;
     ResourceType := ResourceType x; ResourceName := ResourceName x;
     TagList := TagList x; Tags := Tags x; TagJson := TagJson x |}.

(** [tags.Action = action] *)
Definition set_Action (action : string) (x : t) : t :=
  {| Action := action; CID := CID x; CloudType := CloudType x;
     ResourceType := ResourceType x; ResourceName := ResourceName x;
     TagList := TagList x; Tags := Tags x; TagJson := TagJson x |}.

(** [tags.Tags = m] *)
Definition set_Tags (m : gmap string string) (x : t) : t :=
  {| Action := Action x; CID := CID x; CloudType := CloudType x;
     ResourceType := ResourceType x; ResourceName := ResourceName x;
     TagList := TagList x; Tags := m; TagJson := TagJson x |}.
End Tags.

Module TagAPIResp.
Record t : Type := mk {
  Return : bool;
  Results : gmap string (gmap string string);
  Reason : string
}.

(** [var resp TagAPIResp] *)
Definition zero : t := {| Return := false; Results := ∅; Reason := "" |}.
End TagAPIResp.

Module APIResp.
(** The envelope every controller answer carries. *)
Record t : Type := mk { Return : bool; Reason : string }.
End APIResp.

Module Device.
(** The fields of [goaviatrix.Device] that the resource reads or
    writes. *)
Record t : Type := mk {
  Name : string;
  PublicIP : string;
  Username : string;
  KeyFile : string;
  Password : string;
  HostOS : string;
  SshPort : Z;
  SshPortStr : string;
  Address1 : string;
  Address2 : string;
  City : string;
  State : string;
  Country : string;
  ZipCode : string;
  Description : string;
  SoftwareVersion : string;
  IsCaag : bool
}.

#[global] Instance eq_dec : EqDecision t.
Proof. solve_decision. Defined.

(** [&goaviatrix.Device{Name: name}] *)
Definition named (name : string) : t :=
  {| Name := name; PublicIP := ""; Username := ""; KeyFile := "";
     Password := ""; HostOS := ""; SshPort := 0; SshPortStr := "";
     Address1 := ""; Address2 := ""; City := ""; State := "";
     Country := ""; ZipCode := ""; Description := "";
     SoftwareVersion := ""; IsCaag := false |}.
End Device.

Module Gateway.
(** The two fields of [goaviatrix.Gateway] the resource fills in. *)
Record t : Type := mk { GwName : string; SoftwareVersion : string }.

#[global] Instance eq_dec : EqDecision t.
Proof. solve_decision. Defined.
End Gateway.

(** What [PostAPI] is given as its body: a [*Tags] or a parameter map. *)
Inductive Payload : Type :=
| PTags (x : Tags.t)
| PParams (m : gmap string string).

#[global] Instance Payload_eq_dec : EqDecision Payload.
Proof. solve_decision. Defined.

(** ** The controller *)

(** One request on the wire. *)
Inductive Call : Type :=
| CallGet (action : string) (params : gmap string string)
| CallPost (action : string) (body : Payload)
| CallRegisterDevice (dev : Device.t)
| CallGetDevice (dev : Device.t)
| CallUpdateDevice (dev : Device.t)
| CallDeregisterDevice (dev : Device.t)
| CallUpgradeGateway (gw : Gateway.t).

#[global] Instance Call_eq_dec : EqDecision Call.
Proof. solve_decision. Defined.

(** The collaborators that are not part of these two files, taken as
    parameters: the HTTP transport under [GetAPI] and [PostAPI], which
    hands back a transport error or the decoded answer; the device and
    gateway methods of the client; the text of the library's errors; and
    the order in which the Go runtime walks a map, which is some
    permutation of its pairs.  [W] is the state of the remote controller
    (and of the runtime's random source). *)
Class Controller (W : Type) : Type := {
  http_get : string → gmap string string → W → (error + TagAPIResp.t) * W;
  http_post : string → Payload → W → (error + APIResp.t) * W;
  register_device : Client.t → Device.t → W → option error * W;
  get_device : Client.t → Device.t → W → (error + Device.t) * W;
  update_device : Client.t → Device.t → W → option error * W;
  deregister_device : Client.t → Device.t → W → option error * W;
  upgrade_gateway : Client.t → Gateway.t → W → option error * W;
  error_text : error → string;
  range_order : W → gmap string string → list (string * string);
  range_order_perm : ∀ w m, range_order w m ≡ₚ map_to_list m
}.

(** [err.Error()] *)
Definition Error `{Controller W} (e : error) : string :=
  match e with
  | Errorf msg => msg
  | _ => error_text e
  end.

(** ** Calls and their trace *)

(** The state threaded through every operation: the controller, and the
    requests sent to it so far, oldest first. *)
Record St (W : Type) : Type := mkSt { world : W; trace : list Call }.
Arguments mkSt {W} _ _.
Arguments world {W} _.
Arguments trace {W} _.

Definition M (W A : Type) : Type := St W → A * St W.

#[global] Instance M_ret {W} : MRet (M W) := λ A a s, (a, s).
#[global] Instance M_bind {W} : MBind (M W) :=
  λ A B k m s, let '(a, s') := m s in k a s'.

(** Send the request [c], answered by [f]. *)
Definition call {W A} (c : Call) (f : W → A * W) : M W A :=
  λ s, let '(a, w') := f (world s) in
       (a, {| world := w'; trace := trace s ++ [c] |}).

(** The requests an operation added to the trace. *)
Definition sent {W A} (m : M W A) (s : St W) : list Call :=
  drop (length (trace s)) (trace (m s).2).

Section TagClient.
Context {W : Type} `{!Controller W}.

(** Modelled from the spec: the shared success predicate [BasicCheck]
    of the transport, which is not in these files.  It reads the
    [{return, reason}] envelope and rejects, with an API error that
    carries the controller's reason verbatim, exactly when [return] is
    false. *)
Definition BasicCheck (ret : bool) (reason : string) : option error :=
  if ret then None else Some (APIError reason).

(** Modelled from the spec: [Client.GetAPI] of the transport, which is
    not in these files: one request with the action name and the
    parameter map; a transport failure is handed back unchanged; the
    answer is validated by the success predicate and, if accepted,
    decoded into the target, which otherwise stays at its zero
    value. *)
Definition GetAPI (c : Client.t) (action : string) (d : gmap string string)
    (checkFunc : bool → string → option error)
  : M W (TagAPIResp.t * option error) :=
  r ← call (CallGet action d) (http_get action d);
  match r with
  | inl e => mret (TagAPIResp.zero, Some e)
  | inr resp =>
      match checkFunc (TagAPIResp.Return resp) (TagAPIResp.Reason resp) with
      | Some e => mret (TagAPIResp.zero, Some e)
      | None => mret (resp, None)
      end
  end.

(** Modelled from the spec: [Client.PostAPI] of the transport, which
    is not in these files: one request with the action name and the
    body; a transport failure is handed back unchanged; otherwise the
    result is that of the success predicate on the answer. *)
Definition PostAPI (c : Client.t) (action : string) (d : Payload)
    (checkFunc : bool → string → option error) : M W (option error) :=
  r ← call (CallPost action d) (http_post action d);
  match r with
  | inl e => mret (Some e)
  | inr resp => mret (checkFunc (APIResp.Return resp) (APIResp.Reason resp))
  end.

(** [for key, val := range m]: the pairs of [m] in the order the
    runtime picks this time. *)
Definition range (m : gmap string string) : M W (list (string * string)) :=
  λ s, (range_order (world s) m, s).

(** *** goaviatrix/tags.go *)

Definition AddTags (c : Client.t) (tags : Tags.t) : M W (Tags.t * option error) :=
  let tags := Tags.set_CID (Client.CID c) tags in
  let tags := Tags.set_Action "add_resource_tags" tags in
  err ← PostAPI c (Tags.Action tags) (PTags tags) BasicCheck;
  mret (tags, err).

Definition GetTags (c : Client.t) (tags : Tags.t)
  : M W (Tags.t * (option (list string) * option error)) :=
  let data : gmap string string :=
    {[ "action" := "list_resource_tags";
       "CID" := Client.CID c;
       "cloud_type" := Itoa (Tags.CloudType tags);
       "resource_type" := Tags.ResourceType tags;
       "resource_name" := Tags.ResourceName tags ]} in
  '(resp, err) ← GetAPI c (data !!! "action") data BasicCheck;
  match err with
  | Some e => mret (tags, (None, Some e))
  | None =>
      match TagAPIResp.Results resp !! "usr_tags" with
      | Some tagsMap =>
          let tags := Tags.set_Tags tagsMap tags in
          pairs ← range tagsMap;
          let tagList :=
            foldl (λ tagList '(key, val),
                     let tagStr := key +:+ ":" +:+ val in
                     append tagList tagStr)
                  None pairs in
          mret (tags, (tagList, None))
      | None => mret (tags, (None, None))
      end
  end.

Definition DeleteTags (c : Client.t) (tags : Tags.t) : M W (option error) :=
  let params : gmap string string :=
    {[ "action" := "delete_resource_tag";
       "CID" := Client.CID c;
       "cloud_type" := Itoa (Tags.CloudType tags);
       "del_tag_list" := Tags.TagList tags;
       "resource_name" := Tags.ResourceName tags;
       "resource_type" := Tags.ResourceType tags ]} in
  PostAPI c (params !!! "action") (PParams params) BasicCheck.

Definition UpdateTags (c : Client.t) (tags : Tags.t) : M W (Tags.t * option error) :=
  let tags := Tags.set_CID (Client.CID c) tags in
  let tags := Tags.set_Action "update_resource_tags" tags in
  err ← PostAPI c (Tags.Action tags) (PTags tags) BasicCheck;
  mret (tags, err).

End TagClient.

(** ** The resource data of the plugin SDK *)

Module ResourceData.

(** Attribute values by the type their schema entry declares
    ([TypeString], [TypeInt], [TypeBool]), so that the type assertions
    of the handlers ([d.Get(k).(string)] and the like) cannot fail. *)
Record Attrs : Type := mkAttrs {
  strings : gmap string string;
  ints : gmap string Z;
  bools : gmap string bool
}.

(** [schema.ResourceData], as far as the handlers use it: the resource
    ID, the attributes of the prior state, the attributes the handler
    reads (the prior state with the planned changes and the schema
    defaults applied), and the attributes the handler has written with
    [Set], which shadow the ones it reads. *)
Record t : Type := mk {
  id : string;
  prior : Attrs;
  planned : Attrs;
  written : Attrs
}.

(** [d.Id()] *)
Definition Id (d : t) : string := id d.

(** [d.SetId(v)] *)
Definition SetId (v : string) (d : t) : t :=
  {| id := v; prior := prior d; planned := planned d; written := written d |}.

(** [d.Get(k).(string)]: the zero value when the attribute is unset. *)
Definition GetString (d : t) (k : string) : string :=
  match strings (written d) !! k with
  | Some v => v
  | None => default "" (strings (planned d) !! k)
  end.

(** [d.Get(k).(int)] *)
Definition GetInt (d : t) (k : string) : Z :=
  match ints (written d) !! k with
  | Some v => v
  | None => default 0%Z (ints (planned d) !! k)
  end.

(** [d.Get(k).(bool)] *)
Definition GetBool (d : t) (k : string) : bool :=
  match bools (written d) !! k with
  | Some v => v
  | None => default false (bools (planned d) !! k)
  end.

(** The value of [k] in one layer, whatever its type. *)
Definition at_layer (a : Attrs) (k : string) : string * Z * bool :=
  (default "" (strings a !! k), default 0%Z (ints a !! k),
   default false (bools a !! k)).

(** [d.HasChange(k)]: the planned value differs from the prior one. *)
Definition HasChange (d : t) (k : string) : bool :=
  bool_decide (at_layer (prior d) k ≠ at_layer (planned d) k).

(** [d.Set(k, v)] with a string, an int, a bool. *)
Definition SetString (k v : string) (d : t) : t :=
  {| id := id d; prior := prior d; planned := planned d;
     written := {| strings := <[k := v]> (strings (written d));
                   ints := ints (written d); bools := bools (written d) |} |}.

Definition SetInt (k : string) (v : Z) (d : t) : t :=
  {| id := id d; prior := prior d; planned := planned d;
     written := {| strings := strings (written d);
                   ints := <[k := v]> (ints (written d));
                   bools := bools (written d) |} |}.

Definition SetBool (k : string) (v : bool) (d : t) : t :=
  {| id := id d; prior := prior d; planned := planned d;
     written := {| strings := strings (written d); ints := ints (written d);
                   bools := <[k := v]> (bools (written d)) |} |}.

End ResourceData.

Import ResourceData (Id, SetId, GetString, GetInt, GetBool, HasChange,
                     SetString, SetInt, SetBool).

(** ** The device-registration resource *)

Section Resource.
Context {W : Type} `{!Controller W}.

(** The device and gateway methods of the client.  Modelled from the
    spec: they are not in these files; each sends one request, stamps
    nothing but the session and action fields of the struct it is given
    (fields the resource never reads), and [GetDevice] returns either a
    fully populated device or an error. *)
Definition RegisterDevice (c : Client.t) (dev : Device.t) : M W (option error) :=
  call (CallRegisterDevice dev) (register_device c dev).

Definition GetDevice (c : Client.t) (dev : Device.t) : M W (error + Device.t) :=
  call (CallGetDevice dev) (get_device c dev).

Definition UpdateDevice (c : Client.t) (dev : Device.t) : M W (option error) :=
  call (CallUpdateDevice dev) (update_device c dev).

Definition DeregisterDevice (c : Client.t) (dev : Device.t) : M W (option error) :=
  call (CallDeregisterDevice dev) (deregister_device c dev).

Definition UpgradeGateway (c : Client.t) (gw : Gateway.t) : M W (option error) :=
  call (CallUpgradeGateway gw) (upgrade_gateway c gw).

(** marshalDeviceRegistrationInput marshals the ResourceData into a
    Device struct. *)
Definition marshalDeviceRegistrationInput (d : ResourceData.t) : Device.t :=
  {| Device.Name := GetString d "name";
     Device.PublicIP := GetString d "public_ip";
     Device.Username := GetString d "username";
     Device.KeyFile := GetString d "key_file";
     Device.Password := GetString d "password";
     Device.HostOS := GetString d "host_os";
     Device.SshPort := GetInt d "ssh_port";
     Device.SshPortStr := Itoa (GetInt d "ssh_port");
     Device.Address1 := GetString d "address_1";
     Device.Address2 := GetString d "address_2";
     Device.City := GetString d "city";
     Device.State := GetString d "state";
     Device.Country := GetString d "country";
     Device.ZipCode := GetString d "zip_code";
     Device.Description := GetString d "description";
     Device.SoftwareVersion := "";
     Device.IsCaag := false |}.

Definition resourceAviatrixDeviceRegistrationCreate
    (d : ResourceData.t) (meta : Client.t) : M W (ResourceData.t * option error) :=
  let client := meta in
  let device := marshalDeviceRegistrationInput d in
  err ← RegisterDevice client device;
  match err with
  | Some err =>
      mret (d, Some (Errorf ("could not register device: " +:+ Error err)))
  | None =>
      let d := SetId (Device.Name device) d in
      mret (d, None)
  end.

(** The [log.Printf] of the import branch writes to the log only and
    is left out. *)
Definition resourceAviatrixDeviceRegistrationRead
    (d : ResourceData.t) (meta : Client.t) : M W (ResourceData.t * option error) :=
  let client := meta in
  let name := GetString d "name" in
  let '(d, name) :=
    if decide (name = "") then
      let id := Id d in
      let d := SetId id d in
      (d, id)
    else (d, name) in
  let device := Device.named name in
  r ← GetDevice client device;
  match r with
  | inl ErrNotFound =>
      let d := SetId "" d in
      mret (d, None)
  | inl err =>
      mret (d, Some (Errorf ("could not find device " +:+ name +:+ ": "
                             +:+ Error err)))
  | inr device =>
      let d := SetString "name" (Device.Name device) d in
      let d := SetString "public_ip" (Device.PublicIP device) d in
      let d := SetString "username" (Device.Username device) d in
      let d := SetString "host_os" (Device.HostOS device) d in
      let d := SetInt "ssh_port" (Device.SshPort device) d in
      let d := SetString "address_1" (Device.Address1 device) d in
      let d := SetString "address_2" (Device.Address2 device) d in
      let d := SetString "city" (Device.City device) d in
      let d := SetString "state" (Device.State device) d in
      let d := SetString "country" (Device.Country device) d in
      let d := SetString "zip_code" (Device.ZipCode device) d in
      let d := SetString "description" (Device.Description device) d in
      let d := SetString "software_version" (Device.SoftwareVersion device) d in
      let d := SetBool "is_caag" (Device.IsCaag device) d in
      let d := SetId (Device.Name device) d in
      mret (d, None)
  end.

Definition resourceAviatrixDeviceRegistrationUpdate
    (d : ResourceData.t) (meta : Client.t) : M W (ResourceData.t * option error) :=
  let client := meta in
  let device := marshalDeviceRegistrationInput d in
  err ← UpdateDevice client device;
  match err with
  | Some err =>
      mret (d, Some (Errorf ("could not update device registration information: "
                             +:+ Error err)))
  | None =>
      let finish : M W (ResourceData.t * option error) :=
        let d := SetId (Device.Name device) d in
        mret (d, None) in
      if HasChange d "software_version" then
        let isCaag := GetBool d "is_caag" in
        if negb isCaag then
          mret (d, Some (Errorf "'software_version' can only be updated for managed cloudN (CaaG) devices"))
        else
          let softwareVersion := GetString d "software_version" in
          err ← UpgradeGateway client
                  {| Gateway.GwName := Device.Name device;
                     Gateway.SoftwareVersion := softwareVersion |};
          match err with
          | Some err =>
              mret (d, Some (Errorf ("could not upgrade CaaG: " +:+ Error err)))
          | None => finish
          end
      else finish
  end.

Definition resourceAviatrixDeviceRegistrationDelete
    (d : ResourceData.t) (meta : Client.t) : M W (ResourceData.t * option error) :=
  let client := meta in
  let br := marshalDeviceRegistrationInput d in
  err ← DeregisterDevice client br;
  match err with
  | Some err =>
      mret (d, Some (Errorf ("could not deregister device: " +:+ Error err)))
  | None =>
      let d := SetId (Device.Name br) d in
      mret (d, None)
  end.

End Resource.

(** ** A scripted controller

    A test double: it answers every request of a kind with the answer
    its script holds for that kind, and has no state of its own.  The
    runtime walks a map in the order [map_to_list] lists it. *)

Module Stub.

Record Script : Type := mk {
  on_get : error + TagAPIResp.t;
  on_post : error + APIResp.t;
  on_register : option error;
  on_lookup : error + Device.t;
  on_update : option error;
  on_deregister : option error;
  on_upgrade : option error
}.

Definition text (e : error) : string :=
  match e with
  | ErrNotFound => "ErrNotFound"
  | APIError reason => reason
  | TransportError msg => msg
  | Errorf msg => msg
  end.

Definition controller (sc : Script) : Controller unit :=
  {| http_get _ _ w := (on_get sc, w);
     http_post _ _ w := (on_post sc, w);
     register_device _ _ w := (on_register sc, w);
     get_device _ _ w := (on_lookup sc, w);
     update_device _ _ w := (on_update sc, w);
     deregister_device _ _ w := (on_deregister sc, w);
     upgrade_gateway _ _ w := (on_upgrade sc, w);
     error_text := text;
     range_order _ m := map_to_list m;
     range_order_perm _ m := reflexivity (map_to_list m) |}.

(** The start of a session: nothing sent yet. *)
Definition start : St unit := {| world := tt; trace := [] |}.

(** A controller that accepts everything and knows one device. *)
Definition ok (dev : Device.t) : Script :=
  {| on_get := inr {| TagAPIResp.Return := true; TagAPIResp.Results := ∅;
                      TagAPIResp.Reason := "" |};
     on_post := inr {| APIResp.Return := true; APIResp.Reason := "" |};
     on_register := None;
     on_lookup := inr dev;
     on_update := None;
     on_deregister := None;
     on_upgrade := None |}.

End Stub.

(** ** Vocabulary of the statements *)

(** The parameter bag of a tag listing, key by key. *)
Definition list_tags_params (c : Client.t) (tags : Tags.t) : gmap string string :=
  <["action" := "list_resource_tags"]>
  (<["CID" := Client.CID c]>
  (<["cloud_type" := Itoa (Tags.CloudType tags)]>
  (<["resource_type" := Tags.ResourceType tags]>
  (<["resource_name" := Tags.ResourceName tags]> ∅)))).

(** The parameter map of a tag deletion, key by key. *)
Definition delete_tags_params (c : Client.t) (tags : Tags.t) : gmap string string :=
  <["action" := "delete_resource_tag"]>
  (<["CID" := Client.CID c]>
  (<["cloud_type" := Itoa (Tags.CloudType tags)]>
  (<["del_tag_list" := Tags.TagList tags]>
  (<["resource_name" := Tags.ResourceName tags]>
  (<["resource_type" := Tags.ResourceType tags]> ∅))))).

(** One entry of the derived tag list. *)
Definition tag_string (p : string * string) : string := p.1 +:+ ":" +:+ p.2.

(** The description of [AddTags] and [UpdateTags] in one operation that
    takes the action string: stamp the session token and the action,
    post the whole struct under the shared success predicate. *)
Definition stamp_and_post {W} `{!Controller W} (action : string)
    (c : Client.t) (tags : Tags.t) : M W (Tags.t * option error) :=
  let stamped :=
    {| Tags.Action := action; Tags.CID := Client.CID c;
       Tags.CloudType := Tags.CloudType tags;
       Tags.ResourceType := Tags.ResourceType tags;
       Tags.ResourceName := Tags.ResourceName tags;
       Tags.TagList := Tags.TagList tags; Tags.Tags := Tags.Tags tags;
       Tags.TagJson := Tags.TagJson tags |} in
  err ← PostAPI c action (PTags stamped) BasicCheck;
  mret (stamped, err).

(** Two tag structs agree everywhere but in the tag mapping. *)
Definition same_but_Tags (x y : Tags.t) : Prop :=
  Tags.Action x = Tags.Action y ∧ Tags.CID x = Tags.CID y ∧
  Tags.CloudType x = Tags.CloudType y ∧
  Tags.ResourceType x = Tags.ResourceType y ∧
  Tags.ResourceName x = Tags.ResourceName y ∧
  Tags.TagList x = Tags.TagList y ∧ Tags.TagJson x = Tags.TagJson y.

(** ** Sample inputs *)

Definition client0 : Client.t := {| Client.CID := "sess-42" |}.

Definition tags0 : Tags.t :=
  {| Tags.Action := ""; Tags.CID := ""; Tags.CloudType := 1;
     Tags.ResourceType := "gw"; Tags.ResourceName := "gw1";
     Tags.TagList := "k1,k2"; Tags.Tags := {[ "old" := "x" ]};
     Tags.TagJson := "{}" |}.

Definition usr_tags0 : gmap string string :=
  {[ "env" := "prod"; "team" := "net" ]}.

(** An accepted listing that carries user tags. *)
Definition listing_ok : Stub.Script :=
  {| Stub.on_get :=
       inr {| TagAPIResp.Return := true;
              TagAPIResp.Results := {[ "usr_tags" := usr_tags0 ]};
              TagAPIResp.Reason := "" |};
     Stub.on_post := inr {| APIResp.Return := true; APIResp.Reason := "" |};
     Stub.on_register := None; Stub.on_lookup := inl ErrNotFound;
     Stub.on_update := None; Stub.on_deregister := None;
     Stub.on_upgrade := None |}.

(** A listing that carries user tags but that the controller marks as
    failed. *)
Definition listing_rejected : Stub.Script :=
  {| Stub.on_get :=
       inr {| TagAPIResp.Return := false;
              TagAPIResp.Results := {[ "usr_tags" := usr_tags0 ]};
              TagAPIResp.Reason := "denied" |};
     Stub.on_post := inr {| APIResp.Return := true; APIResp.Reason := "" |};
     Stub.on_register := None; Stub.on_lookup := inl ErrNotFound;
     Stub.on_update := None; Stub.on_deregister := None;
     Stub.on_upgrade := None |}.

(** An accepted listing with a category other than the user tags. *)
Definition listing_no_tags : Stub.Script :=
  {| Stub.on_get :=
       inr {| TagAPIResp.Return := true;
              TagAPIResp.Results := {[ "sys_tags" := usr_tags0 ]};
              TagAPIResp.Reason := "" |};
     Stub.on_post := inr {| APIResp.Return := true; APIResp.Reason := "" |};
     Stub.on_register := None; Stub.on_lookup := inl ErrNotFound;
     Stub.on_update := None; Stub.on_deregister := None;
     Stub.on_upgrade := None |}.

(** The resource data after the fourteen [d.Set] calls with which the
    read handler stores a device. *)
Definition store_device (device : Device.t) (d : ResourceData.t) : ResourceData.t :=
  let d := SetString "name" (Device.Name device) d in
  let d := SetString "public_ip" (Device.PublicIP device) d in
  let d := SetString "username" (Device.Username device) d in
  let d := SetString "host_os" (Device.HostOS device) d in
  let d := SetInt "ssh_port" (Device.SshPort device) d in
  let d := SetString "address_1" (Device.Address1 device) d in
  let d := SetString "address_2" (Device.Address2 device) d in
  let d := SetString "city" (Device.City device) d in
  let d := SetString "state" (Device.State device) d in
  let d := SetString "country" (Device.Country device) d in
  let d := SetString "zip_code" (Device.ZipCode device) d in
  let d := SetString "description" (Device.Description device) d in
  let d := SetString "software_version" (Device.SoftwareVersion device) d in
  let d := SetBool "is_caag" (Device.IsCaag device) d in
  d.

(** The name the read handler looks up: the ["name"] attribute, or the
    resource ID when that attribute is empty. *)
Definition lookup_name (d : ResourceData.t) : string :=
  if decide (GetString d "name" = "") then Id d else GetString d "name".

(** The error the update handler raises for a device that is not a
    managed gateway. *)
Definition not_caag_error : error :=
  Errorf "'software_version' can only be updated for managed cloudN (CaaG) devices".

Definition attrs0 (version : string) : ResourceData.Attrs :=
  {| ResourceData.strings :=
       {[ "name" := "dev1"; "public_ip" := "1.2.3.4"; "username" := "admin";
          "password" := "x"; "host_os" := "ios";
          "software_version" := version ]};
     ResourceData.ints := {[ "ssh_port" := 22%Z ]};
     ResourceData.bools := {[ "is_caag" := false ]} |}.

Definition no_attrs : ResourceData.Attrs :=
  {| ResourceData.strings := ∅; ResourceData.ints := ∅;
     ResourceData.bools := ∅ |}.

(** A registered device [dev1] that is not a managed gateway, with a
    plan that changes its software version from 6.5 to 6.6. *)
Definition upgrade_plan : ResourceData.t :=
  {| ResourceData.id := "dev1"; ResourceData.prior := attrs0 "6.5";
     ResourceData.planned := attrs0 "6.6"; ResourceData.written := no_attrs |}.

(** The same device with nothing to change. *)
Definition steady : ResourceData.t :=
  {| ResourceData.id := "dev1"; ResourceData.prior := attrs0 "6.5";
     ResourceData.planned := attrs0 "6.5"; ResourceData.written := no_attrs |}.

(** An import: an ID and no attribute. *)
Definition imported : ResourceData.t :=
  {| ResourceData.id := "dev1"; ResourceData.prior := no_attrs;
     ResourceData.planned := no_attrs; ResourceData.written := no_attrs |}.

(** The device as the controller holds it. *)
Definition dev1 : Device.t :=
  {| Device.Name := "dev1"; Device.PublicIP := "1.2.3.4";
     Device.Username := "admin"; Device.KeyFile := ""; Device.Password := "";
     Device.HostOS := "ios"; Device.SshPort := 22; Device.SshPortStr := "22";
     Device.Address1 := ""; Device.Address2 := ""; Device.City := "";
     Device.State := ""; Device.Country := ""; Device.ZipCode := "";
     Device.Description := ""; Device.SoftwareVersion := "6.5";
     Device.IsCaag := false |}.

(** A controller on which the device has gone. *)
Definition gone : Stub.Script :=
  {| Stub.on_get := inl (TransportError "unused");
     Stub.on_post := inl (TransportError "unused");
     Stub.on_register := None; Stub.on_lookup := inl ErrNotFound;
     Stub.on_update := None; Stub.on_deregister := None;
     Stub.on_upgrade := None |}.

(** A controller that cannot be reached for lookups. *)
Definition unreachable : Stub.Script :=
  {| Stub.on_get := inl (TransportError "unused");
     Stub.on_post := inl (TransportError "unused");
     Stub.on_register := None;
     Stub.on_lookup := inl (TransportError "connection refused");
     Stub.on_update := None; Stub.on_deregister := None;
     Stub.on_upgrade := None |}.

(** ** The schema of the resource *)

Module schema.

(** The part of the plugin SDK's [schema] package that the resource
    declaration uses.  A field the Go literal leaves out has its zero
    value: [false], [None], the empty list, the empty string. *)
Inductive ValueType : Type := TypeBool | TypeInt | TypeString.

#[global] Instance ValueType_eq_dec : EqDecision ValueType.
Proof. solve_decision. Defined.

(** An [interface{}] holding a string, an int or a bool. *)
Inductive Value : Type :=
| VString (v : string)
| VInt (v : Z)
| VBool (v : bool).

#[global] Instance Value_eq_dec : EqDecision Value.
Proof. solve_decision. Defined.

(** The validators the declaration names: [validation.IsIPAddress] and
    [validation.StringInSlice(valid, ignoreCase)]. *)
Inductive SchemaValidateFunc : Type :=
| IsIPAddress
| StringInSlice (valid : list string) (ignoreCase : bool).

(** The default function the declaration names: the provider's
    [envDefaultFunc(k)], which is not in these files. *)
Inductive SchemaDefaultFunc : Type :=
| envDefaultFunc (k : string).

(** The state function the importer names. *)
Inductive StateFunc : Type := ImportStatePassthrough.

Record Schema : Type := mkSchema {
  Type_ : ValueType;
  Required : bool;
  Optional : bool;
  Computed : bool;
  ForceNew : bool;
  Sensitive : bool;
  Default : option Value;
  DefaultFunc : option SchemaDefaultFunc;
  ValidateFunc : option SchemaValidateFunc;
  ExactlyOneOf : list string;
  Description : string
}.

Record Resource (H : Type) : Type := mkResource {
  Create : H;
  Read : H;
  Update : H;
  Delete : H;
  Importer : option StateFunc;
  Schema_ : gmap string Schema
}.
Arguments mkResource {H} _ _ _ _ _ _.
Arguments Create {H} _.
Arguments Read {H} _.
Arguments Update {H} _.
Arguments Delete {H} _.
Arguments Importer {H} _.
Arguments Schema_ {H} _.

End schema.

(** The [Schema] map of [resourceAviatrixDeviceRegistration]. *)
Definition deviceRegistrationSchema : gmap string schema.Schema :=
  list_to_map
  [ ("name",
       {| schema.Type_ := schema.TypeString; schema.Required := true;
          schema.Optional := false; schema.Computed := false;
          schema.ForceNew := true; schema.Sensitive := false;
          schema.Default := None; schema.DefaultFunc := None;
          schema.ValidateFunc := None; schema.ExactlyOneOf := [];
          schema.Description := "Name of the device." |});
    ("public_ip",
       {| schema.Type_ := schema.TypeString; schema.Required := true;
          schema.Optional := false; schema.Computed := false;
          schema.ForceNew := true; schema.Sensitive := false;
          schema.Default := None; schema.DefaultFunc := None;
          schema.ValidateFunc := Some schema.IsIPAddress;
          schema.ExactlyOneOf := [];
          schema.Description := "Public IP address of the device." |});
    ("username",
       {| schema.Type_ := schema.TypeString; schema.Required := true;
          schema.Optional := false; schema.Computed := false;
          schema.ForceNew := false; schema.Sensitive := false;
          schema.Default := None; schema.DefaultFunc := None;
          schema.ValidateFunc := None; schema.ExactlyOneOf := [];
          schema.Description := "Username to use to connect to the device." |});
    ("key_file",
       {| schema.Type_ := schema.TypeString; schema.Required := false;
          schema.Optional := true; schema.Computed := false;
          schema.ForceNew := false; schema.Sensitive := false;
          schema.Default := None; schema.DefaultFunc := None;
          schema.ValidateFunc := None;
          schema.ExactlyOneOf := ["password"; "key_file"];
          schema.Description := "Path to private key file." |});
    ("password",
       {| schema.Type_ := schema.TypeString; schema.Required := false;
          schema.Optional := true; schema.Computed := false;
          schema.ForceNew := false; schema.Sensitive := true;
          schema.Default := None;
          schema.DefaultFunc :=
            Some (schema.envDefaultFunc "AVIATRIX_DEVICE_PASSWORD");
          schema.ValidateFunc := None; schema.ExactlyOneOf := [];
          schema.Description :=
            "Password to connect to the device. " +:+
            "This attribute can also be set via environment variable 'AVIATRIX_DEVICE_PASSWORD'. " +:+
            "If both are set the value in the config file will be used." |});
    ("host_os",
       {| schema.Type_ := schema.TypeString; schema.Required := false;
          schema.Optional := true; schema.Computed := false;
          schema.ForceNew := true; schema.Sensitive := false;
          schema.Default := Some (schema.VString "ios");
          schema.DefaultFunc := None;
          schema.ValidateFunc :=
            Some (schema.StringInSlice ["ios"; "aviatrix"] false);
          schema.ExactlyOneOf := [];
          schema.Description :=
            "Device host OS. Default value is 'ios'. Valid values are 'ios' or 'aviatrix'." |});
    ("ssh_port",
       {| schema.Type_ := schema.TypeInt; schema.Required := false;
          schema.Optional := true; schema.Computed := false;
          schema.ForceNew := false; schema.Sensitive := false;
          schema.Default := Some (schema.VInt 22);
          schema.DefaultFunc := None; schema.ValidateFunc := None;
          schema.ExactlyOneOf := [];
          schema.Description :=
            "SSH port to use to connect to the device. Defaults to 22 if not set." |});
    ("address_1",
       {| schema.Type_ := schema.TypeString; schema.Required := false;
          schema.Optional := true; schema.Computed := false;
          schema.ForceNew := false; schema.Sensitive := false;
          schema.Default := None; schema.DefaultFunc := None;
          schema.ValidateFunc := None; schema.ExactlyOneOf := [];
          schema.Description := "Address line 1." |});
    ("address_2",
       {| schema.Type_ := schema.TypeString; schema.Required := false;
          schema.Optional := true; schema.Computed := false;
          schema.ForceNew := false; schema.Sensitive := false;
          schema.Default := None; schema.DefaultFunc := None;
          schema.ValidateFunc := None; schema.ExactlyOneOf := [];
          schema.Description := "Address line 2." |});
    ("city",
       {| schema.Type_ := schema.TypeString; schema.Required := false;
          schema.Optional := true; schema.Computed := false;
          schema.ForceNew := false; schema.Sensitive := false;
          schema.Default := None; schema.DefaultFunc := None;
          schema.ValidateFunc := None; schema.ExactlyOneOf := [];
          schema.Description := "City" |});
    ("state",
       {| schema.Type_ := schema.TypeString; schema.Required := false;
          schema.Optional := true; schema.Computed := false;
          schema.ForceNew := false; schema.Sensitive := false;
          schema.Default := None; schema.DefaultFunc := None;
          schema.ValidateFunc := None; schema.ExactlyOneOf := [];
          schema.Description := "State" |});
    ("country",
       {| schema.Type_ := schema.TypeString; schema.Required := false;
          schema.Optional := true; schema.Computed := false;
          schema.ForceNew := false; schema.Sensitive := false;
          schema.Default := None; schema.DefaultFunc := None;
          schema.ValidateFunc := None; schema.ExactlyOneOf := [];
          schema.Description := "ISO two-letter country code." |});
    ("zip_code",
       {| schema.Type_ := schema.TypeString; schema.Required := false;
          schema.Optional := true; schema.Computed := false;
          schema.ForceNew := false; schema.Sensitive := false;
          schema.Default := None; schema.DefaultFunc := None;
          schema.ValidateFunc := None; schema.ExactlyOneOf := [];
          schema.Description := "Zip code." |});
    ("description",
       {| schema.Type_ := schema.TypeString; schema.Required := false;
          schema.Optional := true; schema.Computed := false;
          schema.ForceNew := false; schema.Sensitive := false;
          schema.Default := None; schema.DefaultFunc := None;
          schema.ValidateFunc := None; schema.ExactlyOneOf := [];
          schema.Description := "Description." |});
    ("software_version",
       {| schema.Type_ := schema.TypeString; schema.Required := false;
          schema.Optional := true; schema.Computed := true;
          schema.ForceNew := false; schema.Sensitive := false;
          schema.Default := None; schema.DefaultFunc := None;
          schema.ValidateFunc := None; schema.ExactlyOneOf := [];
          schema.Description :=
            "software_version can be used to set the desired software version of the CaaG. " +:+
            "If set, we will attempt to update the gateway to the specified version. " +:+
            "If left blank, the gateway software version will continue to be managed through the aviatrix_controller_config resource." |});
    ("is_caag",
       {| schema.Type_ := schema.TypeBool; schema.Required := false;
          schema.Optional := false; schema.Computed := true;
          schema.ForceNew := false; schema.Sensitive := false;
          schema.Default := None; schema.DefaultFunc := None;
          schema.ValidateFunc := None; schema.ExactlyOneOf := [];
          schema.Description :=
            "Whether this device is a Managed CloudN device (CaaG)" |}) ].

Section ResourceDeclaration.
Context {W : Type} `{!Controller W}.

Definition resourceAviatrixDeviceRegistration
  : schema.Resource (ResourceData.t → Client.t → M W (ResourceData.t * option error)) :=
  {| schema.Create := resourceAviatrixDeviceRegistrationCreate;
     schema.Read := resourceAviatrixDeviceRegistrationRead;
     schema.Update := resourceAviatrixDeviceRegistrationUpdate;
     schema.Delete := resourceAviatrixDeviceRegistrationDelete;
     schema.Importer := Some schema.ImportStatePassthrough;
     schema.Schema_ := deviceRegistrationSchema |}.

End ResourceDeclaration.

(** [d.Get(k)] as the value the schema type [ty] makes it. *)
Definition attribute (d : ResourceData.t) (k : string) (ty : schema.ValueType)
  : schema.Value :=
  match ty with
  | schema.TypeString => schema.VString (GetString d k)
  | schema.TypeInt => schema.VInt (GetInt d k)
  | schema.TypeBool => schema.VBool (GetBool d k)
  end.

(** The attributes the schema declares with type [ty], leaving out the
    names in [but]. *)
Definition declared (ty : schema.ValueType) (but : list string) : gset string :=
  dom (filter (λ ke, schema.Type_ ke.2 = ty ∧ ke.1 ∉ but)
              deviceRegistrationSchema).

(** The attributes that hold the credentials: the group of which the
    schema wants exactly one. *)
Definition credentials : list string :=
  match deviceRegistrationSchema !! "key_file" with
  | Some e => schema.ExactlyOneOf e
  | None => []
  end.

(** ** Vocabulary of the further properties *)

(** What identifies the tagged resource in a request. *)
Definition resource_of (tags : Tags.t) : Z * string * string :=
  (Tags.CloudType tags, Tags.ResourceType tags, Tags.ResourceName tags).

(** What a tag deletion takes from the caller's struct. *)
Definition deletion_of (tags : Tags.t) : Z * string * string * string :=
  (Tags.CloudType tags, Tags.TagList tags, Tags.ResourceName tags,
   Tags.ResourceType tags).

(** No character of the string is a colon. *)
Fixpoint colon_free (s : string) : bool :=
  match s with
  | EmptyString => true
  | String a s' => negb (bool_decide (a = ":"%char)) && colon_free s'
  end.

(** The string attributes [store_device] writes, with their values. *)
Definition stored_strings (device : Device.t) : gmap string string :=
  <["software_version" := Device.SoftwareVersion device]>
  (<["description" := Device.Description device]>
  (<["zip_code" := Device.ZipCode device]>
  (<["country" := Device.Country device]>
  (<["state" := Device.State device]>
  (<["city" := Device.City device]>
  (<["address_2" := Device.Address2 device]>
  (<["address_1" := Device.Address1 device]>
  (<["host_os" := Device.HostOS device]>
  (<["username" := Device.Username device]>
  (<["public_ip" := Device.PublicIP device]>
  (<["name" := Device.Name device]> ∅))))))))))).

(** The requests of an update, by the answer to the device update. *)
Definition update_requests (d : ResourceData.t) (updated : option error) : list Call :=
  let device := marshalDeviceRegistrationInput d in
  CallUpdateDevice device ::
  match updated with
  | Some _ => []
  | None =>
      if HasChange d "software_version" && GetBool d "is_caag"
      then [CallUpgradeGateway
              {| Gateway.GwName := Device.Name device;
                 Gateway.SoftwareVersion := GetString d "software_version" |}]
      else []
  end.

(** A listing the transport could not deliver. *)
Definition listing_unreachable : Stub.Script :=
  {| Stub.on_get := inl (TransportError "timeout");
     Stub.on_post := inl (TransportError "timeout");
     Stub.on_register := Some (TransportError "timeout");
     Stub.on_lookup := inl (TransportError "timeout");
     Stub.on_update := Some (TransportError "timeout");
     Stub.on_deregister := Some ErrNotFound;
     Stub.on_upgrade := Some (TransportError "timeout") |}.

(** Another tag struct for the resource of [tags0]. *)
Definition tags1 : Tags.t :=
  {| Tags.Action := "stale"; Tags.CID := "old-session"; Tags.CloudType := 1;
     Tags.ResourceType := "gw"; Tags.ResourceName := "gw1";
     Tags.TagList := "k1,k2"; Tags.Tags := ∅; Tags.TagJson := "" |}.

(** A managed gateway [dev1] whose plan changes the software version. *)
Definition caag_attrs (version : string) : ResourceData.Attrs :=
  {| ResourceData.strings :=
       {[ "name" := "dev1"; "public_ip" := "1.2.3.4"; "username" := "admin";
          "key_file" := "/keys/dev1.pem"; "host_os" := "aviatrix";
          "software_version" := version ]};
     ResourceData.ints := {[ "ssh_port" := 22%Z ]};
     ResourceData.bools := {[ "is_caag" := true ]} |}.

Definition caag_upgrade_plan : ResourceData.t :=
  {| ResourceData.id := "dev1"; ResourceData.prior := caag_attrs "6.5";
     ResourceData.planned := caag_attrs "6.6"; ResourceData.written := no_attrs |}.

(** The attributes [store_device] writes. *)
Definition stored_string_keys : gset string :=
  {[ "name"; "public_ip"; "username"; "host_os"; "address_1"; "address_2";
     "city"; "state"; "country"; "zip_code"; "description";
     "software_version" ]}.

(** The device struct the handlers build from resource data in which a
    device has been stored: the stored fields, the credentials of the
    data as it was, and nothing of the version and the managed flag. *)
Definition marshalled_after_store (device : Device.t) (d : ResourceData.t) : Device.t :=
  {| Device.Name := Device.Name device;
     Device.PublicIP := Device.PublicIP device;
     Device.Username := Device.Username device;
     Device.KeyFile := GetString d "key_file";
     Device.Password := GetString d "password";
     Device.HostOS := Device.HostOS device;
     Device.SshPort := Device.SshPort device;
     Device.SshPortStr := Itoa (Device.SshPort device);
     Device.Address1 := Device.Address1 device;
     Device.Address2 := Device.Address2 device;
     Device.City := Device.City device;
     Device.State := Device.State device;
     Device.Country := Device.Country device;
     Device.ZipCode := Device.ZipCode device;
     Device.Description := Device.Description device;
     Device.SoftwareVersion := "";
     Device.IsCaag := false |}.

(** * Properties *)

(** ** Decimal rendering *)

Lemma digit_value_char (x : N) :
  (x < 10)%N → digit_value (pretty_N_char x) = Some x.
Proof.
  intros Hx.
  assert (x ∈ [0; 1; 2; 3; 4; 5; 6; 7; 8; 9]%N) as Hin.
  { apply list_elem_of_In. simpl. lia. }
  repeat (apply elem_of_cons in Hin as [->|Hin]; [reflexivity|]).
  by apply elem_of_nil in Hin.
Qed.

Lemma read_digits_pretty (x : N) :
  ∃ k : N, ∀ s acc,
    read_digits (pretty_N_go x s) acc = read_digits s (acc * 10 ^ k + x)%N.
Proof.
  induction (N.lt_wf_0 x) as [x _ IH].
  destruct (decide (x = 0)%N) as [->|Hpos].
  - exists 0%N. intros s acc. rewrite pretty_N_go_0. f_equal. lia.
  - destruct (IH (x `div` 10)%N) as [k Hk].
    { apply N.div_lt; lia. }
    exists (N.succ k). intros s acc.
    rewrite pretty_N_go_step by lia. rewrite Hk. simpl.
    rewrite digit_value_char by (apply N.mod_lt; lia).
    f_equal. rewrite N.pow_succ_r'.
    pose proof (N.div_mod x 10). lia.
Qed.

Lemma read_digits_numeral (x : N) :
  read_digits (pretty_N_go x "") 0 = Some x.
Proof.
  destruct (read_digits_pretty x) as [k Hk]. rewrite Hk. simpl.
  f_equal; lia.
Qed.

(** [Itoa] renders its argument in base 10: reading the numeral back
    gives the number. *)
Lemma Itoa_decimal (n : Z) : decimal_value (Itoa n) = Some n.
Proof.
  unfold Itoa, pretty, pretty_Z. destruct n as [|p|p].
  - reflexivity.
  - unfold pretty, pretty_positive, pretty, pretty_N.
    rewrite decide_False by done.
    pose proof (read_digits_numeral (N.pos p)) as Hread.
    pose proof (pretty_N_go_ne_dash (N.pos p) "") as Hdash.
    destruct (pretty_N_go (N.pos p) "") as [|a s] eqn:Hs; [done|].
    unfold decimal_value. destruct (decide (a = "-"%char)) as [->|_].
    + by destruct (Hdash s).
    + by rewrite Hread.
  - unfold pretty, pretty_positive, pretty, pretty_N.
    rewrite decide_False by done. simpl.
    change ("" +:+ pretty_N_go (N.pos p) "") with (pretty_N_go (N.pos p) "").
    by rewrite read_digits_numeral.
Qed.

(** ** Running the requests *)

Section TraceFacts.
Context {W : Type}.

Lemma sent_extends {A} (m : M W A) (s : St W) (l : list Call) :
  trace (m s).2 = trace s ++ l → sent m s = l.
Proof. unfold sent. intros ->. by rewrite drop_app_length. Qed.

Lemma call_run {A} (c : Call) (f : W → A * W) (s : St W) :
  call c f s = ((f (world s)).1,
                {| world := (f (world s)).2; trace := trace s ++ [c] |}).
Proof. unfold call. by destruct (f (world s)). Qed.

End TraceFacts.

Section TagFacts.
Context {W : Type} `{!Controller W}.

Lemma Itoa_samples :
  Itoa 0 = "0" ∧ Itoa 1 = "1" ∧ Itoa 256 = "256" ∧ Itoa (-12) = "-12".
Proof. by vm_compute. Qed.

(** The map literal of [GetTags] is the bag [list_tags_params]. *)
Lemma list_tags_params_action c tags :
  list_tags_params c tags !!! "action" = "list_resource_tags".
Proof. unfold list_tags_params. by rewrite lookup_total_insert_eq. Qed.

Lemma delete_tags_params_action c tags :
  delete_tags_params c tags !!! "action" = "delete_resource_tag".
Proof. unfold delete_tags_params. by rewrite lookup_total_insert_eq. Qed.

(** What [GetAPI] does, by the answer of the transport. *)
Lemma GetAPI_run c action d check s :
  GetAPI c action d check s =
  (match (http_get action d (world s)).1 with
   | inl e => (TagAPIResp.zero, Some e)
   | inr resp =>
       match check (TagAPIResp.Return resp) (TagAPIResp.Reason resp) with
       | Some e => (TagAPIResp.zero, Some e)
       | None => (resp, None)
       end
   end,
   {| world := (http_get action d (world s)).2;
      trace := trace s ++ [CallGet action d] |}).
Proof.
  unfold GetAPI, mbind, M_bind. rewrite call_run.
  destruct (http_get action d (world s)) as [[e|resp] w']; simpl; [done|].
  by destruct (check _ _).
Qed.

Lemma PostAPI_run c action d check s :
  PostAPI c action d check s =
  (match (http_post action d (world s)).1 with
   | inl e => Some e
   | inr resp => check (APIResp.Return resp) (APIResp.Reason resp)
   end,
   {| world := (http_post action d (world s)).2;
      trace := trace s ++ [CallPost action d] |}).
Proof.
  unfold PostAPI, mbind, M_bind. rewrite call_run.
  by destruct (http_post action d (world s)) as [[e|resp] w'].
Qed.

(** The derived list, for any walk of the map. *)
Lemma tag_list_elems (pairs : list (string * string)) (acc : option (list string)) :
  elems (foldl (λ tagList '(key, val),
                  let tagStr := key +:+ ":" +:+ val in append tagList tagStr)
               acc pairs)
  = elems acc ++ (tag_string <$> pairs).
Proof.
  revert acc. induction pairs as [|[k v] pairs IH]; intros acc; simpl.
  - by rewrite app_nil_r.
  - rewrite IH. destruct acc as [l|]; simpl; [|done].
    by rewrite <- app_assoc.
Qed.

(** [GetTags], by the answer of the transport. *)
Lemma GetTags_run c tags s :
  let data := list_tags_params c tags in
  let r := http_get "list_resource_tags" data (world s) in
  let s' := {| world := r.2; trace := trace s ++ [CallGet "list_resource_tags" data] |} in
  GetTags c tags s =
  (match r.1 with
   | inl e => (tags, (None, Some e))
   | inr resp =>
       match BasicCheck (TagAPIResp.Return resp) (TagAPIResp.Reason resp) with
       | Some e => (tags, (None, Some e))
       | None =>
           match TagAPIResp.Results resp !! "usr_tags" with
           | Some tagsMap =>
               (Tags.set_Tags tagsMap tags,
                (foldl (λ tagList '(key, val),
                          let tagStr := key +:+ ":" +:+ val in
                          append tagList tagStr)
                       None (range_order r.2 tagsMap), None))
           | None => (tags, (None, None))
           end
       end
   end, s').
Proof.
  intros data r s'. unfold GetTags.
  change ({[ "action" := "list_resource_tags"; "CID" := Client.CID c;
             "cloud_type" := Itoa (Tags.CloudType tags);
             "resource_type" := Tags.ResourceType tags;
             "resource_name" := Tags.ResourceName tags ]} : gmap string string)
    with data.
  unfold data at 1. rewrite list_tags_params_action. fold data.
  unfold mbind, M_bind. rewrite GetAPI_run. fold r. fold s'.
  destruct r.1 as [e|resp]; [done|].
  destruct (BasicCheck _ _); [done|].
  by destruct (TagAPIResp.Results resp !! "usr_tags").
Qed.

End TagFacts.

Section TagClaims.
Context {W : Type} `{!Controller W}.

Lemma DeleteTags_run c tags s :
  DeleteTags c tags s =
  PostAPI c "delete_resource_tag" (PParams (delete_tags_params c tags))
          BasicCheck s.
Proof.
  unfold DeleteTags.
  change ({[ "action" := "delete_resource_tag"; "CID" := Client.CID c;
             "cloud_type" := Itoa (Tags.CloudType tags);
             "del_tag_list" := Tags.TagList tags;
             "resource_name" := Tags.ResourceName tags;
             "resource_type" := Tags.ResourceType tags ]} : gmap string string)
    with (delete_tags_params c tags).
  by rewrite delete_tags_params_action.
Qed.

(** C5.  For every client, tag struct and controller state, [GetTags]
    sends exactly one request, a GET of action ["list_resource_tags"],
    whose parameter bag has the five keys [action], [CID], [cloud_type],
    [resource_type], [resource_name] and no other, bound to the action
    name, the client's session token, the rendering of the cloud type
    by [Itoa] (a base-10 numeral that denotes it), the resource type
    and the resource name. *)
Theorem GetTags_parameter_bag (c : Client.t) (tags : Tags.t) (s : St W) :
  ∃ data : gmap string string,
    sent (GetTags c tags) s = [CallGet "list_resource_tags" data]
    ∧ dom data = ({[ "action"; "CID"; "cloud_type"; "resource_type";
                     "resource_name" ]} : gset string)
    ∧ data !! "action" = Some "list_resource_tags"
    ∧ data !! "CID" = Some (Client.CID c)
    ∧ data !! "cloud_type" = Some (Itoa (Tags.CloudType tags))
    ∧ data !! "resource_type" = Some (Tags.ResourceType tags)
    ∧ data !! "resource_name" = Some (Tags.ResourceName tags)
    ∧ decimal_value (Itoa (Tags.CloudType tags)) = Some (Tags.CloudType tags).
Proof.
  exists (list_tags_params c tags). split.
  - apply sent_extends. pose proof (GetTags_run c tags s) as E.
    cbv zeta in E. by rewrite E.
  - unfold list_tags_params. split.
    + rewrite !dom_insert_L, dom_empty_L. set_solver.
    + repeat split; try by simplify_map_eq. apply Itoa_decimal.
Qed.

(** C6.  For every client, tag struct and controller state,
    [DeleteTags] sends exactly one request, a POST of action
    ["delete_resource_tag"], whose parameter map has the six keys
    [action], [CID], [cloud_type], [del_tag_list], [resource_name],
    [resource_type] and no other, bound to the action name, the session
    token, the base-10 numeral of the cloud type, the caller's
    [TagList] string, the resource name and the resource type; what it
    returns is the error of that POST under the shared success
    predicate (the transport's error, or the predicate's verdict on the
    envelope), and nothing else. *)
Theorem DeleteTags_parameter_map (c : Client.t) (tags : Tags.t) (s : St W) :
  ∃ params : gmap string string,
    sent (DeleteTags c tags) s = [CallPost "delete_resource_tag" (PParams params)]
    ∧ dom params = ({[ "action"; "CID"; "cloud_type"; "del_tag_list";
                       "resource_name"; "resource_type" ]} : gset string)
    ∧ params !! "action" = Some "delete_resource_tag"
    ∧ params !! "CID" = Some (Client.CID c)
    ∧ params !! "cloud_type" = Some (Itoa (Tags.CloudType tags))
    ∧ params !! "del_tag_list" = Some (Tags.TagList tags)
    ∧ params !! "resource_name" = Some (Tags.ResourceName tags)
    ∧ params !! "resource_type" = Some (Tags.ResourceType tags)
    ∧ decimal_value (Itoa (Tags.CloudType tags)) = Some (Tags.CloudType tags)
    ∧ (DeleteTags c tags s).1 =
        match (http_post "delete_resource_tag" (PParams params) (world s)).1 with
        | inl e => Some e
        | inr resp => BasicCheck (APIResp.Return resp) (APIResp.Reason resp)
        end.
Proof.
  exists (delete_tags_params c tags).
  rewrite (sent_extends _ _ [CallPost "delete_resource_tag"
                               (PParams (delete_tags_params c tags))]);
    [|by rewrite DeleteTags_run, PostAPI_run].
  split; [done|]. split.
  { unfold delete_tags_params. rewrite !dom_insert_L, dom_empty_L. set_solver. }
  rewrite DeleteTags_run, PostAPI_run. unfold delete_tags_params.
  repeat split; try by simplify_map_eq. apply Itoa_decimal.
Qed.

(** C7.  [AddTags] and [UpdateTags] are one operation, [stamp_and_post],
    run with the action ["add_resource_tags"] and
    ["update_resource_tags"]: each stamps the client's session token in
    [CID], posts the whole struct under the shared success predicate in
    one request, and the struct [UpdateTags] posts and leaves behind is
    the one of [AddTags] with [Action] replaced. *)
Theorem UpdateTags_is_AddTags_up_to_action (c : Client.t) (tags : Tags.t) (s : St W) :
  AddTags c tags = stamp_and_post "add_resource_tags" c tags
  ∧ UpdateTags c tags = stamp_and_post "update_resource_tags" c tags
  ∧ let a := (AddTags c tags s).1.1 in
    let u := (UpdateTags c tags s).1.1 in
    Tags.CID a = Client.CID c ∧ Tags.CID u = Client.CID c
    ∧ Tags.Action a = "add_resource_tags"
    ∧ Tags.Action u = "update_resource_tags"
    ∧ u = Tags.set_Action "update_resource_tags" a
    ∧ sent (AddTags c tags) s = [CallPost "add_resource_tags" (PTags a)]
    ∧ sent (UpdateTags c tags) s = [CallPost "update_resource_tags" (PTags u)].
Proof.
  split; [reflexivity|]. split; [reflexivity|].
  unfold AddTags, UpdateTags, mbind, M_bind. simpl.
  rewrite !PostAPI_run. simpl.
  repeat split; apply sent_extends; unfold mbind, M_bind;
    by rewrite PostAPI_run.
Qed.

(** C3.  When the transport answers the listing with a response that
    the success predicate accepts and whose results have no
    ["usr_tags"] key, [GetTags] returns the nil list and the nil
    error. *)
Theorem GetTags_without_usr_tags (c : Client.t) (tags : Tags.t) (s : St W)
    (resp : TagAPIResp.t) :
  (http_get "list_resource_tags" (list_tags_params c tags) (world s)).1 = inr resp →
  BasicCheck (TagAPIResp.Return resp) (TagAPIResp.Reason resp) = None →
  TagAPIResp.Results resp !! "usr_tags" = None →
  (GetTags c tags s).1.2 = (None, None).
Proof.
  intros Hget Hok Hno. pose proof (GetTags_run c tags s) as E.
  cbv zeta in E. rewrite E, Hget, Hok, Hno. reflexivity.
Qed.

(** C2, amended.  When the transport answers the listing with a
    response that the success predicate accepts and whose results bind
    ["usr_tags"] to a mapping [M], [GetTags] sets the [Tags] field of
    the caller's struct to [M] and returns, with a nil error, a list
    that holds the string [key ++ ":" ++ value] once for each pair of
    [M], in some order: a string is in the list exactly when it is
    built from a pair of [M]. *)
Theorem GetTags_with_usr_tags (c : Client.t) (tags : Tags.t) (s : St W)
    (resp : TagAPIResp.t) (M : gmap string string) :
  (http_get "list_resource_tags" (list_tags_params c tags) (world s)).1 = inr resp →
  BasicCheck (TagAPIResp.Return resp) (TagAPIResp.Reason resp) = None →
  TagAPIResp.Results resp !! "usr_tags" = Some M →
  ∃ tagList : option (list string),
    (GetTags c tags s).1 = (Tags.set_Tags M tags, (tagList, None))
    ∧ Tags.Tags (GetTags c tags s).1.1 = M
    ∧ elems tagList ≡ₚ tag_string <$> map_to_list M
    ∧ ∀ x, x ∈ elems tagList ↔ ∃ key val, M !! key = Some val ∧ x = key +:+ ":" +:+ val.
Proof.
  intros Hget Hok Hm. pose proof (GetTags_run c tags s) as E.
  cbv zeta in E. rewrite E, Hget, Hok, Hm. simpl.
  eexists. split; [reflexivity|]. split; [reflexivity|].
  rewrite tag_list_elems. simpl.
  assert (tag_string <$> range_order
            (http_get "list_resource_tags" (list_tags_params c tags) (world s)).2 M
          ≡ₚ tag_string <$> map_to_list M) as Hperm.
  { apply fmap_Permutation, range_order_perm. }
  split; [done|]. intros x. rewrite Hperm, list_elem_of_fmap. split.
  - intros [[k v] [-> Hin]]. exists k, v. split; [|done].
    by apply elem_of_map_to_list in Hin.
  - intros (k & v & Hkv & ->). exists (k, v). split; [done|].
    by apply elem_of_map_to_list.
Qed.

(** C9.  [GetTags] never changes a field of the caller's struct other
    than [Tags]; and it leaves the whole struct as it was when the
    transport call fails (a transport error, or an answer the success
    predicate rejects) and when the accepted response has no
    ["usr_tags"] key. *)
Theorem GetTags_frame (c : Client.t) (tags : Tags.t) (s : St W) :
  let out := (GetTags c tags s).1 in
  let answer := (http_get "list_resource_tags" (list_tags_params c tags) (world s)).1 in
  same_but_Tags out.1 tags
  ∧ ((GetAPI c "list_resource_tags" (list_tags_params c tags) BasicCheck s).1.2 ≠ None →
     out.1 = tags ∧ out.2.1 = None ∧ out.2.2 ≠ None)
  ∧ (∀ resp, answer = inr resp →
       BasicCheck (TagAPIResp.Return resp) (TagAPIResp.Reason resp) = None →
       TagAPIResp.Results resp !! "usr_tags" = None →
       out.1 = tags).
Proof.
  intros out answer. subst out. pose proof (GetTags_run c tags s) as E.
  cbv zeta in E. rewrite E, GetAPI_run. fold answer. clear E.
  destruct answer as [e|resp]; simpl.
  - split; [by unfold same_but_Tags|]. split; [|done].
    intros _. split; [done|]. split; [done|]. by intros [=].
  - destruct (BasicCheck _ _) as [e|] eqn:Hcheck; simpl.
    + split; [by unfold same_but_Tags|]. split; [|done].
      intros _. split; [done|]. split; [done|]. by intros [=].
    + destruct (TagAPIResp.Results resp !! "usr_tags") as [m|] eqn:Hm; simpl.
      * split; [by unfold same_but_Tags|]. split; [done|].
        intros resp' [= <-] _ Hno. congruence.
      * split; [by unfold same_but_Tags|]. by split.
Qed.

End TagClaims.

(** ** The tag claims on the scripted controller *)

Lemma GetTags_without_usr_tags_witness :
  TagAPIResp.Results
    {| TagAPIResp.Return := true;
       TagAPIResp.Results := {[ "sys_tags" := usr_tags0 ]};
       TagAPIResp.Reason := "" |} !! "usr_tags" = None
  ∧ (@GetTags unit (Stub.controller listing_no_tags) client0 tags0 Stub.start).1.2
    = (None, None).
Proof.
  split; [reflexivity|].
  apply (@GetTags_without_usr_tags unit (Stub.controller listing_no_tags)
           client0 tags0 Stub.start _ eq_refl); reflexivity.
Defined.

Lemma GetTags_with_usr_tags_witness :
  ∃ tagList : option (list string),
    (@GetTags unit (Stub.controller listing_ok) client0 tags0 Stub.start).1
    = (Tags.set_Tags usr_tags0 tags0, (tagList, None))
    ∧ Tags.Tags (@GetTags unit (Stub.controller listing_ok) client0 tags0 Stub.start).1.1
      = usr_tags0
    ∧ elems tagList ≡ₚ tag_string <$> map_to_list usr_tags0
    ∧ ∀ x, x ∈ elems tagList ↔
           ∃ key val, usr_tags0 !! key = Some val ∧ x = key +:+ ":" +:+ val.
Proof.
  apply (@GetTags_with_usr_tags unit (Stub.controller listing_ok)
           client0 tags0 Stub.start _ usr_tags0 eq_refl); reflexivity.
Defined.

(** C2 as stated fails: this answer binds ["usr_tags"] to a mapping, yet
    the controller marks it as failed, so [GetTags] returns the nil list
    with an API error and leaves the [Tags] field as it was. *)
Lemma GetTags_rejected_listing_keeps_error :
  let resp := {| TagAPIResp.Return := false;
                 TagAPIResp.Results := {[ "usr_tags" := usr_tags0 ]};
                 TagAPIResp.Reason := "denied" |} in
  let out := (@GetTags unit (Stub.controller listing_rejected)
                client0 tags0 Stub.start).1 in
  (@http_get unit (Stub.controller listing_rejected) "list_resource_tags"
     (list_tags_params client0 tags0) tt).1 = inr resp
  ∧ TagAPIResp.Results resp !! "usr_tags" = Some usr_tags0
  ∧ out = (tags0, (None, Some (APIError "denied")))
  ∧ Tags.Tags out.1 ≠ usr_tags0
  ∧ out.2.2 ≠ None.
Proof.
  cbv zeta. split; [reflexivity|]. split; [reflexivity|].
  split; [reflexivity|]. split.
  - intros Heq.
    assert (Tags.Tags tags0 !! "env" = usr_tags0 !! "env") as Hl
      by (f_equal; exact Heq).
    vm_compute in Hl. discriminate Hl.
  - discriminate.
Qed.

Lemma GetTags_frame_witness :
  let out := (@GetTags unit (Stub.controller listing_rejected)
                client0 tags0 Stub.start).1 in
  same_but_Tags out.1 tags0 ∧ out.1 = tags0 ∧ out.2.1 = None ∧ out.2.2 ≠ None.
Proof.
  cbv zeta.
  pose proof (@GetTags_frame unit (Stub.controller listing_rejected)
                client0 tags0 Stub.start) as [Hsame [Hfail _]].
  split; [exact Hsame|]. apply Hfail. discriminate.
Defined.

(** ** The resource handlers, by the answers of the controller *)

Section ResourceFacts.
Context {W : Type} `{!Controller W}.

Lemma SetId_Id d : SetId (Id d) d = d.
Proof. by destruct d. Qed.

Lemma Create_run d c s :
  let device := marshalDeviceRegistrationInput d in
  let r := register_device c device (world s) in
  resourceAviatrixDeviceRegistrationCreate d c s =
  (match r.1 with
   | Some err => (d, Some (Errorf ("could not register device: " +:+ Error err)))
   | None => (SetId (Device.Name device) d, None)
   end,
   {| world := r.2; trace := trace s ++ [CallRegisterDevice device] |}).
Proof.
  intros device r. unfold resourceAviatrixDeviceRegistrationCreate,
    RegisterDevice, mbind, M_bind.
  rewrite call_run. fold device. fold r. by destruct r.1.
Qed.

Lemma Read_run d c s :
  let name := lookup_name d in
  let r := get_device c (Device.named name) (world s) in
  resourceAviatrixDeviceRegistrationRead d c s =
  (match r.1 with
   | inl ErrNotFound => (SetId "" d, None)
   | inl err =>
       (d, Some (Errorf ("could not find device " +:+ name +:+ ": "
                         +:+ Error err)))
   | inr device => (SetId (Device.Name device) (store_device device d), None)
   end,
   {| world := r.2; trace := trace s ++ [CallGetDevice (Device.named name)] |}).
Proof.
  intros name r. unfold resourceAviatrixDeviceRegistrationRead.
  subst r name. unfold lookup_name.
  destruct (decide (GetString d "name" = "")) as [Hname|Hname];
    rewrite ?SetId_Id; unfold GetDevice, mbind, M_bind; rewrite call_run;
    destruct (get_device _ _ _) as [[e|dev] w']; simpl.
  all: try done.
  all: by destruct e.
Qed.

Lemma Update_run d c s :
  let device := marshalDeviceRegistrationInput d in
  let r := update_device c device (world s) in
  let s1 := {| world := r.2; trace := trace s ++ [CallUpdateDevice device] |} in
  let gw := {| Gateway.GwName := Device.Name device;
               Gateway.SoftwareVersion := GetString d "software_version" |} in
  let u := upgrade_gateway c gw r.2 in
  resourceAviatrixDeviceRegistrationUpdate d c s =
  match r.1 with
  | Some err =>
      ((d, Some (Errorf ("could not update device registration information: "
                         +:+ Error err))), s1)
  | None =>
      if HasChange d "software_version" then
        if GetBool d "is_caag" then
          (match u.1 with
           | Some err => (d, Some (Errorf ("could not upgrade CaaG: " +:+ Error err)))
           | None => (SetId (Device.Name device) d, None)
           end,
           {| world := u.2; trace := trace s1 ++ [CallUpgradeGateway gw] |})
        else ((d, Some not_caag_error), s1)
      else ((SetId (Device.Name device) d, None), s1)
  end.
Proof.
  intros device r s1 gw u. unfold resourceAviatrixDeviceRegistrationUpdate,
    UpdateDevice, UpgradeGateway, mbind, M_bind.
  rewrite call_run. fold device. fold r. fold s1.
  destruct r.1; [done|].
  destruct (HasChange d "software_version"); [|done].
  destruct (GetBool d "is_caag"); simpl; [|done].
  rewrite call_run. subst u gw s1 device. simpl.
  by destruct (upgrade_gateway _ _ _).1.
Qed.

Lemma SetString_twice k v v' d :
  SetString k v (SetString k v' d) = SetString k v d.
Proof.
  unfold SetString. cbn [ResourceData.id ResourceData.prior
    ResourceData.planned ResourceData.written ResourceData.strings
    ResourceData.ints ResourceData.bools].
  by rewrite insert_insert_eq.
Qed.

(** Writing the looked-up device over a name attribute is writing it
    over none. *)
Lemma store_device_over_name dev v d :
  store_device dev (SetString "name" v d) = store_device dev d.
Proof. unfold store_device. by rewrite SetString_twice. Qed.

End ResourceFacts.

Section ResourceClaims.
Context {W : Type} `{!Controller W}.

Lemma GetDevice_run c dev (s : St W) :
  (GetDevice c dev s).1 = (get_device c dev (world s)).1.
Proof. unfold GetDevice. by rewrite call_run. Qed.

Lemma UpdateDevice_run c dev (s : St W) :
  (UpdateDevice c dev s).1 = (update_device c dev (world s)).1.
Proof. unfold UpdateDevice. by rewrite call_run. Qed.

Lemma Read_sent d c (s : St W) :
  sent (resourceAviatrixDeviceRegistrationRead d c) s
  = [CallGetDevice (Device.named (lookup_name d))].
Proof.
  apply sent_extends. pose proof (Read_run d c s) as E. cbv zeta in E.
  by rewrite E.
Qed.

(** C1, amended.  When the software version has changed and the device
    is not a managed gateway, the update handler returns an error and
    leaves the resource data, its ID included, as it was; it sends the
    controller one request, the device update, and no gateway upgrade;
    and when that device update succeeds the error is the one that says
    the version can only be updated for managed devices. *)
Theorem Update_version_of_unmanaged_device
    (d : ResourceData.t) (c : Client.t) (s : St W) :
  HasChange d "software_version" = true →
  GetBool d "is_caag" = false →
  let out := resourceAviatrixDeviceRegistrationUpdate d c s in
  let device := marshalDeviceRegistrationInput d in
  out.1.2 ≠ None
  ∧ out.1.1 = d
  ∧ sent (resourceAviatrixDeviceRegistrationUpdate d c) s = [CallUpdateDevice device]
  ∧ (∀ gw, CallUpgradeGateway gw ∉ sent (resourceAviatrixDeviceRegistrationUpdate d c) s)
  ∧ world out.2 = (update_device c device (world s)).2
  ∧ ((UpdateDevice c device s).1 = None → out.1.2 = Some not_caag_error).
Proof.
  intros Hchg Hcaag out device.
  assert (sent (resourceAviatrixDeviceRegistrationUpdate d c) s
          = [CallUpdateDevice device]) as Hsent.
  { apply sent_extends. pose proof (Update_run d c s) as E. cbv zeta in E.
    rewrite E, Hchg, Hcaag. by destruct (update_device _ _ _).1. }
  rewrite Hsent, UpdateDevice_run. subst out.
  pose proof (Update_run d c s) as E. cbv zeta in E.
  rewrite E, Hchg, Hcaag. fold device.
  destruct (update_device c device (world s)).1 as [e|]; simpl.
  - repeat split; try done. intros gw [=]%list_elem_of_singleton.
  - repeat split; try done. intros gw [=]%list_elem_of_singleton.
Qed.

(** C4.  When the lookup of the read handler fails with the sentinel
    [ErrNotFound], the handler clears the resource ID and returns the
    nil error; when it fails with any other error, the handler returns
    an error (built from the name and the text of that error) and leaves
    the resource data as it was. *)
Theorem Read_lookup_failure (d : ResourceData.t) (c : Client.t) (s : St W)
    (e : error) :
  (GetDevice c (Device.named (lookup_name d)) s).1 = inl e →
  let out := (resourceAviatrixDeviceRegistrationRead d c s).1 in
  (e = ErrNotFound → out = (SetId "" d, None) ∧ Id out.1 = "" ∧ out.2 = None)
  ∧ (e ≠ ErrNotFound →
     out = (d, Some (Errorf ("could not find device " +:+ lookup_name d
                             +:+ ": " +:+ Error e)))
     ∧ out.2 ≠ None).
Proof.
  rewrite GetDevice_run. intros Hget out. subst out.
  pose proof (Read_run d c s) as E. cbv zeta in E. rewrite E, Hget. simpl.
  split.
  - by intros ->.
  - intros Hne. by destruct e.
Qed.

(** C8, amended.  A create or an update that returns the nil error has
    set the resource ID to the name of the device it sent; a read that
    returns the nil error has either found a device, and set the ID to
    the name of that device, or met [ErrNotFound], and cleared the ID;
    the one request of a read is a lookup of a device struct that holds
    the name and nothing else, so two reads that look up the same name
    send the same request. *)
Theorem external_id_is_device_name (d : ResourceData.t) (c : Client.t) (s : St W) :
  let created := (resourceAviatrixDeviceRegistrationCreate d c s).1 in
  let updated := (resourceAviatrixDeviceRegistrationUpdate d c s).1 in
  let read := (resourceAviatrixDeviceRegistrationRead d c s).1 in
  let device := marshalDeviceRegistrationInput d in
  Device.Name device = GetString d "name"
  ∧ (created.2 = None → Id created.1 = Device.Name device)
  ∧ (updated.2 = None → Id updated.1 = Device.Name device)
  ∧ (read.2 = None →
     match (GetDevice c (Device.named (lookup_name d)) s).1 with
     | inr found => Id read.1 = Device.Name found
     | inl e => e = ErrNotFound ∧ Id read.1 = ""
     end)
  ∧ sent (resourceAviatrixDeviceRegistrationRead d c) s
    = [CallGetDevice (Device.named (lookup_name d))]
  ∧ (∀ d', lookup_name d' = lookup_name d →
       sent (resourceAviatrixDeviceRegistrationRead d' c) s
       = sent (resourceAviatrixDeviceRegistrationRead d c) s).
Proof.
  intros created updated read device. subst created updated read.
  split; [reflexivity|]. split; [|split; [|split; [|split]]].
  - pose proof (Create_run d c s) as E. cbv zeta in E. rewrite E.
    by destruct (register_device _ _ _).1.
  - pose proof (Update_run d c s) as E. cbv zeta in E. rewrite E.
    destruct (update_device _ _ _).1; [done|].
    destruct (HasChange d "software_version"); [|done].
    destruct (GetBool d "is_caag"); [|done].
    by destruct (upgrade_gateway _ _ _).1.
  - rewrite GetDevice_run. pose proof (Read_run d c s) as E. cbv zeta in E.
    rewrite E.
    destruct (get_device _ _ _).1 as [e|found]; [|done]. by destruct e.
  - apply Read_sent.
  - intros d' Hname. by rewrite !Read_sent, Hname.
Qed.

(** C10.  When the ["name"] attribute is empty, the read handler looks
    up the device named by the resource ID, and behaves as a read of
    the same resource data with ["name"] set to that ID: the same
    request, the same controller state afterwards, the same error, the
    same resource ID, and, when the device is found, the same resource
    data.  Stamping the ID the resource already has changes nothing
    ([SetId_Id]): when the lookup fails other than with [ErrNotFound],
    the resource data, its ID included, stays as it was. *)
Theorem Read_import_fallback (d : ResourceData.t) (c : Client.t) (s : St W) :
  GetString d "name" = "" →
  let by_name := SetString "name" (Id d) d in
  let r := resourceAviatrixDeviceRegistrationRead d c s in
  let r' := resourceAviatrixDeviceRegistrationRead by_name c s in
  let lookup := (GetDevice c (Device.named (Id d)) s).1 in
  sent (resourceAviatrixDeviceRegistrationRead d c) s
    = [CallGetDevice (Device.named (Id d))]
  ∧ sent (resourceAviatrixDeviceRegistrationRead by_name c) s
    = [CallGetDevice (Device.named (Id d))]
  ∧ r.2 = r'.2
  ∧ r.1.2 = r'.1.2
  ∧ Id r.1.1 = Id r'.1.1
  ∧ (∀ found, lookup = inr found →
       r.1.1 = r'.1.1 ∧ r.1.1 = SetId (Device.Name found) (store_device found d))
  ∧ (∀ e, lookup = inl e → e ≠ ErrNotFound → r.1.1 = d).
Proof.
  intros Hname by_name r r' lookup.
  assert (lookup_name d = Id d) as Hd.
  { unfold lookup_name. by rewrite decide_True. }
  assert (lookup_name by_name = Id d) as Hd'.
  { unfold lookup_name.
    assert (GetString by_name "name" = Id d) as ->.
    { unfold by_name, GetString, SetString. simpl.
      by rewrite lookup_insert_eq. }
    by case_decide. }
  rewrite !Read_sent, Hd, Hd'. split; [done|]. split; [done|].
  subst r r' lookup. rewrite GetDevice_run.
  pose proof (Read_run d c s) as E. pose proof (Read_run by_name c s) as E'.
  cbv zeta in E, E'. rewrite E, E', Hd, Hd'. clear E E'.
  destruct (get_device c (Device.named (Id d)) (world s)).1 as [e|found]; simpl.
  - destruct e; simpl; repeat split; try done.
    all: intros e' [= <-] Hne; done.
  - unfold by_name. rewrite store_device_over_name.
    repeat split; try done. by simplify_eq.
Qed.

End ResourceClaims.

(** ** The resource claims on the scripted controller *)

(** C1 as stated fails: the plan changes the software version of a
    device that is not a managed gateway, the handler returns the
    error, and yet the device update has been sent to the controller. *)
Lemma Update_sends_device_update_before_check :
  let run := @resourceAviatrixDeviceRegistrationUpdate unit
               (Stub.controller (Stub.ok dev1)) upgrade_plan client0 in
  HasChange upgrade_plan "software_version" = true
  ∧ GetBool upgrade_plan "is_caag" = false
  ∧ (run Stub.start).1 = (upgrade_plan, Some not_caag_error)
  ∧ sent run Stub.start
    = [CallUpdateDevice (marshalDeviceRegistrationInput upgrade_plan)]
  ∧ ¬ (∀ dev, CallUpdateDevice dev ∉ sent run Stub.start).
Proof.
  cbv zeta. split; [by vm_compute|]. split; [by vm_compute|].
  split; [by vm_compute|].
  assert (sent (@resourceAviatrixDeviceRegistrationUpdate unit
                  (Stub.controller (Stub.ok dev1)) upgrade_plan client0)
               Stub.start
          = [CallUpdateDevice (marshalDeviceRegistrationInput upgrade_plan)])
    as Hsent by (by vm_compute).
  split; [exact Hsent|].
  intros Hnone.
  apply (Hnone (marshalDeviceRegistrationInput upgrade_plan)).
  rewrite Hsent. apply list_elem_of_singleton. reflexivity.
Qed.

Lemma Update_version_of_unmanaged_device_witness :
  let run := @resourceAviatrixDeviceRegistrationUpdate unit
               (Stub.controller (Stub.ok dev1)) upgrade_plan client0 in
  HasChange upgrade_plan "software_version" = true
  ∧ GetBool upgrade_plan "is_caag" = false
  ∧ (run Stub.start).1.2 ≠ None
  ∧ (run Stub.start).1.1 = upgrade_plan
  ∧ sent run Stub.start
    = [CallUpdateDevice (marshalDeviceRegistrationInput upgrade_plan)]
  ∧ (run Stub.start).1.2 = Some not_caag_error.
Proof.
  cbv zeta.
  assert (HasChange upgrade_plan "software_version" = true) as Hchg
    by (vm_compute; reflexivity).
  assert (GetBool upgrade_plan "is_caag" = false) as Hcaag
    by (vm_compute; reflexivity).
  split; [exact Hchg|]. split; [exact Hcaag|].
  pose proof (@Update_version_of_unmanaged_device unit
                (Stub.controller (Stub.ok dev1)) upgrade_plan client0
                Stub.start Hchg Hcaag) as (Herr & Hdata & Hsent & _ & _ & Hdom).
  split; [exact Herr|]. split; [exact Hdata|]. split; [exact Hsent|].
  apply Hdom. reflexivity.
Defined.

Lemma Read_lookup_failure_witness :
  (@resourceAviatrixDeviceRegistrationRead unit (Stub.controller gone)
     steady client0 Stub.start).1 = (SetId "" steady, None)
  ∧ (@resourceAviatrixDeviceRegistrationRead unit (Stub.controller unreachable)
       steady client0 Stub.start).1
    = (steady, Some (Errorf "could not find device dev1: connection refused")).
Proof.
  split.
  - apply (@Read_lookup_failure unit (Stub.controller gone) steady client0
             Stub.start ErrNotFound eq_refl). reflexivity.
  - apply (@Read_lookup_failure unit (Stub.controller unreachable) steady
             client0 Stub.start (TransportError "connection refused") eq_refl).
    discriminate.
Defined.

(** C8 as stated fails: this read returns the nil error, the device is
    named [dev1], and the resource ID it leaves is the empty string. *)
Lemma Read_of_missing_device_clears_id :
  let out := (@resourceAviatrixDeviceRegistrationRead unit
                (Stub.controller gone) steady client0 Stub.start).1 in
  GetString steady "name" = "dev1"
  ∧ out.2 = None
  ∧ Id out.1 = ""
  ∧ Id out.1 ≠ GetString steady "name".
Proof.
  cbv zeta. split; [by vm_compute|]. split; [by vm_compute|].
  split; [by vm_compute|]. vm_compute. discriminate.
Qed.

Lemma external_id_is_device_name_witness :
  Id (@resourceAviatrixDeviceRegistrationCreate unit
        (Stub.controller (Stub.ok dev1)) steady client0 Stub.start).1.1 = "dev1"
  ∧ Id (@resourceAviatrixDeviceRegistrationUpdate unit
          (Stub.controller (Stub.ok dev1)) steady client0 Stub.start).1.1 = "dev1"
  ∧ Id (@resourceAviatrixDeviceRegistrationRead unit
          (Stub.controller (Stub.ok dev1)) steady client0 Stub.start).1.1 = "dev1".
Proof.
  pose proof (@external_id_is_device_name unit (Stub.controller (Stub.ok dev1))
                steady client0 Stub.start) as (_ & Hc & Hu & Hr & _).
  split; [exact (Hc eq_refl)|]. split; [exact (Hu eq_refl)|].
  exact (Hr eq_refl).
Defined.

Lemma Read_import_fallback_witness :
  let r := @resourceAviatrixDeviceRegistrationRead unit
             (Stub.controller (Stub.ok dev1)) imported client0 Stub.start in
  let r' := @resourceAviatrixDeviceRegistrationRead unit
              (Stub.controller (Stub.ok dev1))
              (SetString "name" "dev1" imported) client0 Stub.start in
  GetString imported "name" = ""
  ∧ sent (@resourceAviatrixDeviceRegistrationRead unit
            (Stub.controller (Stub.ok dev1)) imported client0) Stub.start
    = [CallGetDevice (Device.named "dev1")]
  ∧ r.2 = r'.2 ∧ r.1.2 = r'.1.2 ∧ r.1.1 = r'.1.1.
Proof.
  cbv zeta. split; [reflexivity|].
  pose proof (@Read_import_fallback unit (Stub.controller (Stub.ok dev1))
                imported client0 Stub.start eq_refl)
    as (Hsent & _ & Hst & Herr & _ & Hfound & _).
  split; [exact Hsent|]. split; [exact Hst|]. split; [exact Herr|].
  exact (proj1 (Hfound dev1 eq_refl)).
Defined.

(** * Further properties of the tag client *)

Section TagExtras.
Context {W : Type} `{!Controller W}.

Lemma GetTags_sent c tags (s : St W) :
  sent (GetTags c tags) s = [CallGet "list_resource_tags" (list_tags_params c tags)].
Proof.
  apply sent_extends. pose proof (GetTags_run c tags s) as E.
  cbv zeta in E. by rewrite E.
Qed.

Lemma DeleteTags_sent c tags (s : St W) :
  sent (DeleteTags c tags) s
  = [CallPost "delete_resource_tag" (PParams (delete_tags_params c tags))].
Proof. apply sent_extends. by rewrite DeleteTags_run, PostAPI_run. Qed.

Lemma list_tags_params_resource c tags tags' :
  list_tags_params c tags = list_tags_params c tags' ↔
  resource_of tags = resource_of tags'.
Proof.
  unfold resource_of. split.
  - intros Heq.
    assert (∀ k, list_tags_params c tags !! k = list_tags_params c tags' !! k)
      as Hk by (by rewrite Heq).
    pose proof (Hk "cloud_type") as H1. pose proof (Hk "resource_type") as H2.
    pose proof (Hk "resource_name") as H3. clear Hk Heq.
    unfold list_tags_params in *. simplify_map_eq.
    congruence.
  - intros [= H1 H2 H3]. unfold list_tags_params. by rewrite H1, H2, H3.
Qed.

Lemma delete_tags_params_deletion c tags tags' :
  delete_tags_params c tags = delete_tags_params c tags' ↔
  deletion_of tags = deletion_of tags'.
Proof.
  unfold deletion_of. split.
  - intros Heq.
    assert (∀ k, delete_tags_params c tags !! k = delete_tags_params c tags' !! k)
      as Hk by (by rewrite Heq).
    pose proof (Hk "cloud_type") as H1. pose proof (Hk "del_tag_list") as H2.
    pose proof (Hk "resource_name") as H3. pose proof (Hk "resource_type") as H4.
    clear Hk Heq. unfold delete_tags_params in *. simplify_map_eq.
    congruence.
  - intros [= H1 H2 H3 H4]. unfold delete_tags_params.
    by rewrite H1, H2, H3, H4.
Qed.

Lemma tag_list_nil (pairs : list (string * string)) (acc : option (list string)) :
  foldl (λ tagList '(key, val),
           let tagStr := key +:+ ":" +:+ val in append tagList tagStr)
        acc pairs = None
  ↔ acc = None ∧ pairs = [].
Proof.
  revert acc. induction pairs as [|[k v] pairs IH]; intros acc; simpl.
  - split; [by intros ->|by intros [-> _]].
  - rewrite IH. split; [|by intros [_ [=]]].
    intros [Hacc _]. by destruct acc.
Qed.

Lemma tag_string_inj k v k' v' :
  colon_free k = true → colon_free k' = true →
  tag_string (k, v) = tag_string (k', v') → k = k' ∧ v = v'.
Proof.
  unfold tag_string. simpl. revert k'.
  induction k as [|a k IH]; intros [|a' k'] Hk Hk' Heq; simpl in *.
  - by injection Heq.
  - injection Heq as <- _. by rewrite bool_decide_eq_true_2 in Hk'.
  - injection Heq as -> _. by rewrite bool_decide_eq_true_2 in Hk.
  - injection Heq as -> Heq.
    apply andb_prop in Hk as [_ Hk]. apply andb_prop in Hk' as [_ Hk'].
    destruct (IH k' Hk Hk' Heq) as [-> ->]. done.
Qed.

(** X1.  [GetTags] adds no error of its own and wraps none: the error it
    returns is the one [GetAPI] returned, nil included, and the
    controller and the trace are left as that one call left them. *)
Theorem GetTags_returns_the_error_of_GetAPI (c : Client.t) (tags : Tags.t) (s : St W) :
  let got := GetAPI c "list_resource_tags" (list_tags_params c tags) BasicCheck s in
  (GetTags c tags s).1.2.2 = got.1.2
  ∧ (GetTags c tags s).2 = got.2
  ∧ (∀ e, (http_get "list_resource_tags" (list_tags_params c tags) (world s)).1 = inl e →
       (GetTags c tags s).1 = (tags, (None, Some e))).
Proof.
  intros got. subst got. pose proof (GetTags_run c tags s) as E.
  cbv zeta in E. rewrite E, GetAPI_run. clear E.
  destruct (http_get _ _ _).1 as [e|resp]; simpl.
  - split; [done|]. split; [done|]. by intros e' [= <-].
  - destruct (BasicCheck _ _); simpl; [done|].
    by destruct (TagAPIResp.Results resp !! "usr_tags").
Qed.

(** X2.  The request of [GetTags] identifies the resource and nothing
    else of the caller's struct: two structs give the same request
    exactly when they agree on cloud type, resource type and resource
    name; and then the list, the error and the state afterwards are the
    same as well, whatever [Action], [CID], [TagList], [Tags] and
    [TagJson] the structs hold. *)
Theorem GetTags_request_identifies_resource (c : Client.t) (tags tags' : Tags.t) (s : St W) :
  (sent (GetTags c tags) s = sent (GetTags c tags') s ↔
   resource_of tags = resource_of tags')
  ∧ (resource_of tags = resource_of tags' →
     (GetTags c tags s).1.2 = (GetTags c tags' s).1.2
     ∧ (GetTags c tags s).2 = (GetTags c tags' s).2).
Proof.
  rewrite !GetTags_sent. split.
  - rewrite <- (list_tags_params_resource c). split; [intros Heq; congruence|by intros ->].
  - intros Hres. apply (list_tags_params_resource c) in Hres.
    pose proof (GetTags_run c tags s) as E. pose proof (GetTags_run c tags' s) as E'.
    cbv zeta in E, E'. rewrite E, E', Hres. clear E E'.
    destruct (http_get _ _ _).1 as [e|resp]; simpl; [done|].
    destruct (BasicCheck _ _); simpl; [done|].
    by destruct (TagAPIResp.Results resp !! "usr_tags").
Qed.

(** X3.  On an accepted listing that binds ["usr_tags"] to [M], the list
    [GetTags] returns has as many elements as [M] has tags, and it is
    the nil slice exactly when [M] is empty (never an empty slice that
    is not nil). *)
Theorem GetTags_list_size (c : Client.t) (tags : Tags.t) (s : St W)
    (resp : TagAPIResp.t) (M : gmap string string) :
  (http_get "list_resource_tags" (list_tags_params c tags) (world s)).1 = inr resp →
  BasicCheck (TagAPIResp.Return resp) (TagAPIResp.Reason resp) = None →
  TagAPIResp.Results resp !! "usr_tags" = Some M →
  let tagList := (GetTags c tags s).1.2.1 in
  length (elems tagList) = size M
  ∧ (tagList = None ↔ M = ∅)
  ∧ tagList ≠ Some [].
Proof.
  intros Hget Hok Hm tagList. subst tagList.
  pose proof (GetTags_run c tags s) as E. cbv zeta in E.
  rewrite E, Hget, Hok, Hm. simpl. clear E.
  set (w' := (http_get _ _ _).2).
  pose proof (range_order_perm w' M) as Hperm.
  set (tagList := foldl _ None (range_order w' M)).
  assert (length (elems tagList) = size M) as Hlen.
  { subst tagList. rewrite tag_list_elems. simpl. rewrite length_fmap, Hperm.
    apply length_map_to_list. }
  assert (tagList = None ↔ M = ∅) as Hnil.
  { subst tagList. rewrite tag_list_nil. split.
    - intros [_ Hnil]. rewrite Hnil in Hperm.
      symmetry in Hperm. apply Permutation_nil_r in Hperm.
      by apply map_to_list_empty_iff.
    - intros ->. split; [done|]. rewrite map_to_list_empty in Hperm.
      by apply Permutation_nil_r in Hperm. }
  split; [exact Hlen|]. split; [exact Hnil|].
  intros Hempty. rewrite Hempty in Hlen, Hnil. simpl in Hlen.
  symmetry in Hlen. apply map_size_empty_iff in Hlen.
  by apply Hnil in Hlen.
Qed.

(** X4.  On an accepted listing that binds ["usr_tags"] to [M], if no
    key of [M] contains a colon then the list [GetTags] returns has no
    duplicate, and each of its strings comes from one pair of [M]
    only. *)
Theorem GetTags_distinct_without_colon (c : Client.t) (tags : Tags.t) (s : St W)
    (resp : TagAPIResp.t) (M : gmap string string) :
  (http_get "list_resource_tags" (list_tags_params c tags) (world s)).1 = inr resp →
  BasicCheck (TagAPIResp.Return resp) (TagAPIResp.Reason resp) = None →
  TagAPIResp.Results resp !! "usr_tags" = Some M →
  (∀ key val, M !! key = Some val → colon_free key = true) →
  NoDup (elems (GetTags c tags s).1.2.1)
  ∧ (∀ key val key' val',
       M !! key = Some val → M !! key' = Some val' →
       key +:+ ":" +:+ val = key' +:+ ":" +:+ val' → key = key' ∧ val = val').
Proof.
  intros Hget Hok Hm Hfree.
  assert (∀ key val key' val',
            M !! key = Some val → M !! key' = Some val' →
            key +:+ ":" +:+ val = key' +:+ ":" +:+ val' →
            key = key' ∧ val = val') as Hinj.
  { intros k v k' v' Hk Hk' Heq.
    apply (tag_string_inj k v k' v'); eauto. }
  split; [|exact Hinj].
  pose proof (GetTags_run c tags s) as E. cbv zeta in E.
  rewrite E, Hget, Hok, Hm. simpl. clear E.
  set (w' := (http_get _ _ _).2).
  pose proof (range_order_perm w' M) as Hperm.
  rewrite tag_list_elems. simpl.
  apply NoDup_fmap_2_strong.
  - intros [k v] [k' v'] Hin Hin' Heq.
    rewrite Hperm in Hin, Hin'.
    apply elem_of_map_to_list in Hin, Hin'.
    destruct (Hinj k v k' v' Hin Hin' Heq) as [-> ->]. done.
  - rewrite Hperm. apply NoDup_map_to_list.
Qed.

(** X5.  The stamps of [AddTags] and [UpdateTags] are overwritten, not
    accumulated: either operation run on the struct an earlier [AddTags]
    or [UpdateTags] left behind, possibly with another client, behaves
    as on the original struct; and the six other fields of the struct
    are the caller's after any such call, whether the post succeeded or
    not. *)
Theorem tag_posts_overwrite_stamps (c c' : Client.t) (tags : Tags.t) (s s' : St W) :
  let added := (AddTags c tags s).1.1 in
  let updated := (UpdateTags c tags s).1.1 in
  UpdateTags c' added s' = UpdateTags c' tags s'
  ∧ AddTags c' updated s' = AddTags c' tags s'
  ∧ AddTags c' added s' = AddTags c' tags s'
  ∧ UpdateTags c' updated s' = UpdateTags c' tags s'
  ∧ resource_of added = resource_of tags
  ∧ resource_of updated = resource_of tags
  ∧ (Tags.TagList added, Tags.Tags added, Tags.TagJson added)
    = (Tags.TagList tags, Tags.Tags tags, Tags.TagJson tags)
  ∧ (Tags.TagList updated, Tags.Tags updated, Tags.TagJson updated)
    = (Tags.TagList tags, Tags.Tags tags, Tags.TagJson tags).
Proof.
  intros added updated. subst added updated.
  unfold AddTags, UpdateTags, mbind, M_bind. simpl.
  rewrite !PostAPI_run. simpl. done.
Qed.

(** X6.  The request of [DeleteTags] takes from the caller's struct the
    cloud type, the tag list string, the resource name and the resource
    type, and nothing else: two structs give the same request exactly
    when they agree on these four, and then the whole call is the same;
    in particular the [Tags] mapping and the struct's own [CID] play no
    part in a deletion. *)
Theorem DeleteTags_request_identifies_deletion (c : Client.t) (tags tags' : Tags.t) (s : St W) :
  (sent (DeleteTags c tags) s = sent (DeleteTags c tags') s ↔
   deletion_of tags = deletion_of tags')
  ∧ (deletion_of tags = deletion_of tags' →
     DeleteTags c tags s = DeleteTags c tags' s).
Proof.
  rewrite !DeleteTags_sent. split.
  - rewrite <- (delete_tags_params_deletion c). split; [intros Heq; congruence|by intros ->].
  - intros Hdel. apply (delete_tags_params_deletion c) in Hdel.
    by rewrite !DeleteTags_run, Hdel.
Qed.

End TagExtras.

(** * Further properties of the device-registration resource *)

Section ResourceExtras.
Context {W : Type} `{!Controller W}.

Lemma Delete_run d c (s : St W) :
  let br := marshalDeviceRegistrationInput d in
  let r := deregister_device c br (world s) in
  resourceAviatrixDeviceRegistrationDelete d c s =
  (match r.1 with
   | Some err => (d, Some (Errorf ("could not deregister device: " +:+ Error err)))
   | None => (SetId (Device.Name br) d, None)
   end,
   {| world := r.2; trace := trace s ++ [CallDeregisterDevice br] |}).
Proof.
  intros br r. unfold resourceAviatrixDeviceRegistrationDelete,
    DeregisterDevice, mbind, M_bind.
  rewrite call_run. fold br. fold r. by destruct r.1.
Qed.

Lemma Create_sent d c (s : St W) :
  sent (resourceAviatrixDeviceRegistrationCreate d c) s
  = [CallRegisterDevice (marshalDeviceRegistrationInput d)].
Proof.
  apply sent_extends. pose proof (Create_run d c s) as E. cbv zeta in E.
  by rewrite E.
Qed.

Lemma Delete_sent d c (s : St W) :
  sent (resourceAviatrixDeviceRegistrationDelete d c) s
  = [CallDeregisterDevice (marshalDeviceRegistrationInput d)].
Proof.
  apply sent_extends. pose proof (Delete_run d c s) as E. cbv zeta in E.
  by rewrite E.
Qed.

Lemma Update_sent d c (s : St W) :
  sent (resourceAviatrixDeviceRegistrationUpdate d c) s
  = update_requests d
      (update_device c (marshalDeviceRegistrationInput d) (world s)).1.
Proof.
  apply sent_extends. pose proof (Update_run d c s) as E. cbv zeta in E.
  rewrite E. unfold update_requests.
  destruct (update_device _ _ _).1; [done|].
  destruct (HasChange d "software_version"); [|done].
  destruct (GetBool d "is_caag"); [|done].
  cbn [andb world trace snd]. by rewrite <- app_assoc.
Qed.

Lemma SetString_mk k v i p pl st it bl :
  SetString k v (ResourceData.mk i p pl (ResourceData.mkAttrs st it bl))
  = ResourceData.mk i p pl (ResourceData.mkAttrs (<[k:=v]> st) it bl).
Proof. reflexivity. Qed.

Lemma SetInt_mk k v i p pl st it bl :
  SetInt k v (ResourceData.mk i p pl (ResourceData.mkAttrs st it bl))
  = ResourceData.mk i p pl (ResourceData.mkAttrs st (<[k:=v]> it) bl).
Proof. reflexivity. Qed.

Lemma SetBool_mk k v i p pl st it bl :
  SetBool k v (ResourceData.mk i p pl (ResourceData.mkAttrs st it bl))
  = ResourceData.mk i p pl (ResourceData.mkAttrs st it (<[k:=v]> bl)).
Proof. reflexivity. Qed.

Lemma store_device_eq dev d :
  store_device dev d =
  {| ResourceData.id := ResourceData.id d;
     ResourceData.prior := ResourceData.prior d;
     ResourceData.planned := ResourceData.planned d;
     ResourceData.written :=
       {| ResourceData.strings :=
            stored_strings dev ∪ ResourceData.strings (ResourceData.written d);
          ResourceData.ints :=
            <["ssh_port" := Device.SshPort dev]>
              (ResourceData.ints (ResourceData.written d));
          ResourceData.bools :=
            <["is_caag" := Device.IsCaag dev]>
              (ResourceData.bools (ResourceData.written d)) |} |}.
Proof.
  destruct d as [i p pl [st it bl]]. unfold store_device. cbv zeta.
  rewrite !SetString_mk, SetInt_mk, !SetString_mk, SetBool_mk.
  cbn [ResourceData.id ResourceData.prior ResourceData.planned
       ResourceData.written ResourceData.strings ResourceData.ints
       ResourceData.bools].
  unfold stored_strings.
  do 12 rewrite <- insert_union_l. by rewrite (left_id_L ∅ (∪)).
Qed.

Lemma stored_strings_dom dev : dom (stored_strings dev) = stored_string_keys.
Proof.
  unfold stored_strings, stored_string_keys.
  rewrite !dom_insert_L, dom_empty_L. set_solver.
Qed.

Lemma GetString_store_device dev d n k :
  GetString (SetId n (store_device dev d)) k =
  match stored_strings dev !! k with
  | Some v => v
  | None => GetString d k
  end.
Proof.
  rewrite store_device_eq. unfold GetString, SetId.
  cbn [ResourceData.id ResourceData.prior ResourceData.planned
       ResourceData.written ResourceData.strings].
  rewrite lookup_union.
  destruct (stored_strings dev !! k) as [v|]; simpl.
  - by destruct (ResourceData.strings (ResourceData.written d) !! k).
  - by rewrite (left_id None _).
Qed.

Lemma GetInt_store_device dev d n k :
  GetInt (SetId n (store_device dev d)) k =
  if decide (k = "ssh_port") then Device.SshPort dev else GetInt d k.
Proof.
  rewrite store_device_eq. unfold GetInt, SetId.
  cbn [ResourceData.id ResourceData.prior ResourceData.planned
       ResourceData.written ResourceData.ints].
  case_decide as Hk.
  - subst k. by rewrite lookup_insert_eq.
  - by rewrite lookup_insert_ne.
Qed.

Lemma GetBool_store_device dev d n k :
  GetBool (SetId n (store_device dev d)) k =
  if decide (k = "is_caag") then Device.IsCaag dev else GetBool d k.
Proof.
  rewrite store_device_eq. unfold GetBool, SetId.
  cbn [ResourceData.id ResourceData.prior ResourceData.planned
       ResourceData.written ResourceData.bools].
  case_decide as Hk.
  - subst k. by rewrite lookup_insert_eq.
  - by rewrite lookup_insert_ne.
Qed.

Lemma marshal_store_device dev d n :
  marshalDeviceRegistrationInput (SetId n (store_device dev d))
  = marshalled_after_store dev d.
Proof.
  unfold marshalDeviceRegistrationInput, marshalled_after_store.
  rewrite !GetString_store_device, !GetInt_store_device.
  unfold stored_strings. by simplify_map_eq.
Qed.

Lemma RegisterDevice_run c dev (s : St W) :
  (RegisterDevice c dev s).1 = (register_device c dev (world s)).1.
Proof. unfold RegisterDevice. by rewrite call_run. Qed.

Lemma DeregisterDevice_run c dev (s : St W) :
  (DeregisterDevice c dev s).1 = (deregister_device c dev (world s)).1.
Proof. unfold DeregisterDevice. by rewrite call_run. Qed.

Lemma update_requests_device d updated dev :
  CallUpdateDevice dev ∈ update_requests d updated →
  dev = marshalDeviceRegistrationInput d.
Proof.
  unfold update_requests. intros [Heq|Hin]%elem_of_cons; [congruence|].
  destruct updated; [by apply elem_of_nil in Hin|].
  destruct (_ && _); [|by apply elem_of_nil in Hin].
  by apply list_elem_of_singleton in Hin.
Qed.

Lemma lookup_name_after_store dev d :
  lookup_name (SetId (Device.Name dev) (store_device dev d)) = Device.Name dev.
Proof.
  unfold lookup_name. rewrite GetString_store_device.
  assert (stored_strings dev !! "name" = Some (Device.Name dev)) as ->
    by (unfold stored_strings; by simplify_map_eq).
  by case_decide.
Qed.

Lemma SetId_twice n m d : SetId n (SetId m d) = SetId n d.
Proof. reflexivity. Qed.

Lemma store_device_twice dev d n :
  store_device dev (SetId n (store_device dev d)) = SetId n (store_device dev d).
Proof.
  rewrite (store_device_eq dev (SetId n (store_device dev d))).
  rewrite (store_device_eq dev d). unfold SetId.
  cbn [ResourceData.id ResourceData.prior ResourceData.planned
       ResourceData.written ResourceData.strings ResourceData.ints
       ResourceData.bools].
  rewrite (assoc_L (∪)), (idemp_L (∪)), !insert_insert_eq. done.
Qed.

Lemma Create_and_Delete_run_success d c (s : St W) :
  ((resourceAviatrixDeviceRegistrationCreate d c s).1.2 = None →
   (resourceAviatrixDeviceRegistrationCreate d c s).1.1
   = SetId (GetString d "name") d)
  ∧ ((resourceAviatrixDeviceRegistrationDelete d c s).1.2 = None →
     (resourceAviatrixDeviceRegistrationDelete d c s).1.1
     = SetId (GetString d "name") d).
Proof.
  pose proof (Create_run d c s) as E. pose proof (Delete_run d c s) as E'.
  cbv zeta in E, E'. rewrite E, E'.
  by destruct (register_device _ _ _).1, (deregister_device _ _ _).1.
Qed.

Lemma Update_run_success d c (s : St W) :
  (resourceAviatrixDeviceRegistrationUpdate d c s).1.2 = None →
  (resourceAviatrixDeviceRegistrationUpdate d c s).1.1
  = SetId (GetString d "name") d.
Proof.
  pose proof (Update_run d c s) as E. cbv zeta in E. rewrite E.
  destruct (update_device _ _ _).1; [done|].
  destruct (HasChange d "software_version"); [|done].
  destruct (GetBool d "is_caag"); [|done].
  by destruct (upgrade_gateway _ _ _).1.
Qed.

(** X7.  Every device struct that the create, update and delete
    handlers send is the one marshalled from the resource data: it is
    named by the ["name"] attribute, its port string is the base-10
    numeral of its port, and it carries no software version and no
    managed-gateway flag, whatever the resource data holds for them. *)
Theorem handlers_send_the_marshalled_device
    (d : ResourceData.t) (c : Client.t) (s : St W) (dev : Device.t) :
  CallRegisterDevice dev ∈ sent (resourceAviatrixDeviceRegistrationCreate d c) s
  ∨ CallUpdateDevice dev ∈ sent (resourceAviatrixDeviceRegistrationUpdate d c) s
  ∨ CallDeregisterDevice dev ∈ sent (resourceAviatrixDeviceRegistrationDelete d c) s →
  dev = marshalDeviceRegistrationInput d
  ∧ Device.Name dev = GetString d "name"
  ∧ decimal_value (Device.SshPortStr dev) = Some (Device.SshPort dev)
  ∧ Device.SoftwareVersion dev = ""
  ∧ Device.IsCaag dev = false.
Proof.
  rewrite Create_sent, Delete_sent, Update_sent.
  intros Hsent.
  assert (dev = marshalDeviceRegistrationInput d) as ->.
  { destruct Hsent as [Hin|[Hin|Hin]].
    - apply list_elem_of_singleton in Hin. congruence.
    - by apply update_requests_device in Hin.
    - apply list_elem_of_singleton in Hin. congruence. }
  split; [done|]. split; [done|]. split; [apply Itoa_decimal|done].
Qed.

(** X8.  The update handler sends the device update first, and after it
    at most one gateway upgrade; the upgrade is sent only when the
    device update succeeded, the software version has changed and the
    device is a managed gateway, and it names the gateway by the
    ["name"] attribute and carries the ["software_version"]
    attribute. *)
Theorem Update_request_protocol (d : ResourceData.t) (c : Client.t) (s : St W) :
  let reqs := sent (resourceAviatrixDeviceRegistrationUpdate d c) s in
  let device := marshalDeviceRegistrationInput d in
  reqs = update_requests d (UpdateDevice c device s).1
  ∧ head reqs = Some (CallUpdateDevice device)
  ∧ length reqs ≤ 2
  ∧ (∀ gw, CallUpgradeGateway gw ∈ reqs →
       (UpdateDevice c device s).1 = None
       ∧ HasChange d "software_version" = true
       ∧ GetBool d "is_caag" = true
       ∧ gw = {| Gateway.GwName := GetString d "name";
                 Gateway.SoftwareVersion := GetString d "software_version" |}).
Proof.
  intros reqs device. subst reqs. rewrite Update_sent, UpdateDevice_run.
  fold device. unfold update_requests. fold device.
  destruct (update_device c device (world s)).1 as [e|].
  { split; [done|]. split; [done|]. split; [simpl; lia|].
    intros gw [[=]|Hin%elem_of_nil]%elem_of_cons. done. }
  destruct (HasChange d "software_version"), (GetBool d "is_caag");
    cbn [andb]; (split; [done|]; split; [done|]; split; [simpl; lia|]);
    intros gw [[=]|Hin]%elem_of_cons.
  - apply list_elem_of_singleton in Hin. injection Hin as ->. done.
  - by apply elem_of_nil in Hin.
  - by apply elem_of_nil in Hin.
  - by apply elem_of_nil in Hin.
Qed.

(** X9.  The update handler returns the nil error exactly when the
    device update succeeds and, if the software version has changed,
    the device is a managed gateway and the gateway upgrade, sent to the
    controller as the device update left it, succeeds too; it then has
    set the resource ID to the ["name"] attribute and changed nothing
    else of the resource data. *)
Theorem Update_succeeds_iff (d : ResourceData.t) (c : Client.t) (s : St W) :
  let out := (resourceAviatrixDeviceRegistrationUpdate d c s).1 in
  let device := marshalDeviceRegistrationInput d in
  let updated := update_device c device (world s) in
  let gw := {| Gateway.GwName := GetString d "name";
               Gateway.SoftwareVersion := GetString d "software_version" |} in
  (out.2 = None ↔
   updated.1 = None
   ∧ (HasChange d "software_version" = true →
      GetBool d "is_caag" = true ∧ (upgrade_gateway c gw updated.2).1 = None))
  ∧ (out.2 = None → out.1 = SetId (GetString d "name") d).
Proof.
  intros out device updated gw. subst out.
  pose proof (Update_run d c s) as E. cbv zeta in E. rewrite E. clear E.
  fold device. fold updated.
  change {| Gateway.GwName := Device.Name device;
            Gateway.SoftwareVersion := GetString d "software_version" |}
    with gw.
  destruct updated.1 as [e|]; simpl.
  { split; [|done]. split; [done|]. by intros [[=] _]. }
  destruct (HasChange d "software_version"); simpl.
  - destruct (GetBool d "is_caag"); simpl.
    + destruct (upgrade_gateway c gw updated.2).1 as [e|]; simpl.
      * split; [|done]. split; [done|]. intros [_ Hup].
        by destruct (Hup eq_refl) as [_ [=]].
      * split; [|done]. split; [|done]. intros _. split; [done|]. done.
    + split; [|done]. split; [done|]. intros [_ Hup].
      by destruct (Hup eq_refl) as [[=] _].
  - split; [|done]. split; [|done]. intros _. split; [done|]. by intros [=].
Qed.

(** X10.  Each of the four handlers, when it returns an error, returns
    the resource data exactly as it was given, and the error is a
    message built by [fmt.Errorf], never the sentinel [ErrNotFound]. *)
Theorem handlers_fail_without_side_effect_on_data
    (d : ResourceData.t) (c : Client.t) (s : St W) :
  let failed (out : ResourceData.t * option error) :=
    ∀ e, out.2 = Some e → out.1 = d ∧ e ≠ ErrNotFound ∧ ∃ msg, e = Errorf msg in
  failed (resourceAviatrixDeviceRegistrationCreate d c s).1
  ∧ failed (resourceAviatrixDeviceRegistrationRead d c s).1
  ∧ failed (resourceAviatrixDeviceRegistrationUpdate d c s).1
  ∧ failed (resourceAviatrixDeviceRegistrationDelete d c s).1.
Proof.
  cbv zeta. split; [|split; [|split]].
  - pose proof (Create_run d c s) as E. cbv zeta in E. rewrite E.
    destruct (register_device _ _ _).1; simpl; intros e' [= <-]; eauto.
  - pose proof (Read_run d c s) as E. cbv zeta in E. rewrite E.
    destruct (get_device _ _ _).1 as [e|dev]; simpl; [|by intros e' [=]].
    destruct e; simpl; intros e' [= <-]; eauto.
  - pose proof (Update_run d c s) as E. cbv zeta in E. rewrite E.
    destruct (update_device _ _ _).1; simpl; [intros e' [= <-]; eauto|].
    destruct (HasChange d "software_version"); simpl; [|by intros e' [=]].
    destruct (GetBool d "is_caag"); simpl;
      [|intros e' [= <-]; unfold not_caag_error; eauto].
    destruct (upgrade_gateway _ _ _).1; simpl; intros e' [= <-]; eauto.
  - pose proof (Delete_run d c s) as E. cbv zeta in E. rewrite E.
    destruct (deregister_device _ _ _).1; simpl; intros e' [= <-]; eauto.
Qed.

(** X11.  The create and the delete handler each send one request, the
    registration or the deregistration of the marshalled device, and
    return the nil error exactly when that request succeeds.  A
    deregistration that fails with [ErrNotFound] makes the delete
    handler fail like any other error; a delete that succeeds leaves the
    resource ID set to the ["name"] attribute, it does not clear it. *)
Theorem Create_and_Delete_outcomes (d : ResourceData.t) (c : Client.t) (s : St W) :
  let device := marshalDeviceRegistrationInput d in
  let created := (resourceAviatrixDeviceRegistrationCreate d c s).1 in
  let deleted := (resourceAviatrixDeviceRegistrationDelete d c s).1 in
  sent (resourceAviatrixDeviceRegistrationCreate d c) s = [CallRegisterDevice device]
  ∧ sent (resourceAviatrixDeviceRegistrationDelete d c) s = [CallDeregisterDevice device]
  ∧ (created.2 = None ↔ (RegisterDevice c device s).1 = None)
  ∧ (deleted.2 = None ↔ (DeregisterDevice c device s).1 = None)
  ∧ ((DeregisterDevice c device s).1 = Some ErrNotFound →
     deleted = (d, Some (Errorf ("could not deregister device: "
                                 +:+ Error ErrNotFound))))
  ∧ (created.2 = None → created.1 = SetId (GetString d "name") d)
  ∧ (deleted.2 = None → deleted.1 = SetId (GetString d "name") d).
Proof.
  intros device created deleted. subst created deleted.
  rewrite Create_sent, Delete_sent, RegisterDevice_run, DeregisterDevice_run.
  pose proof (Create_run d c s) as E. pose proof (Delete_run d c s) as E'.
  cbv zeta in E, E'. rewrite E, E'. clear E E'. fold device.
  split; [done|]. split; [done|].
  destruct (register_device c device (world s)).1,
           (deregister_device c device (world s)).1; simpl;
    repeat split; try done; try (by intros [=]).
  all: by intros [= ->].
Qed.

(** X12.  When the lookup of the read handler finds a device, the
    resource data it returns reads back as that device: marshalling it
    gives the device's name, address, user, host OS, port (and its
    numeral), postal fields and description, the ["software_version"]
    and ["is_caag"] attributes are the device's, and the resource ID is
    the device's name.  The credentials are not the device's: the key
    file and the password stay those of the resource data as it was. *)
Theorem Read_stores_the_device (d : ResourceData.t) (c : Client.t) (s : St W)
    (found : Device.t) :
  (GetDevice c (Device.named (lookup_name d)) s).1 = inr found →
  let d' := (resourceAviatrixDeviceRegistrationRead d c s).1.1 in
  marshalDeviceRegistrationInput d' = marshalled_after_store found d
  ∧ GetString d' "software_version" = Device.SoftwareVersion found
  ∧ GetBool d' "is_caag" = Device.IsCaag found
  ∧ Id d' = Device.Name found
  ∧ GetString d' "key_file" = GetString d "key_file"
  ∧ GetString d' "password" = GetString d "password".
Proof.
  rewrite GetDevice_run. intros Hget d'. subst d'.
  pose proof (Read_run d c s) as E. cbv zeta in E. rewrite E, Hget. clear E.
  cbn [fst snd]. rewrite marshal_store_device.
  rewrite !GetString_store_device, GetBool_store_device.
  unfold stored_strings. by simplify_map_eq.
Qed.

(** X13.  In every outcome the read handler leaves alone what it does
    not store: every string attribute other than the twelve it writes
    (so the key file and the password), every integer attribute other
    than ["ssh_port"], every boolean attribute other than ["is_caag"],
    and the prior and planned layers of the resource data, so that
    [HasChange] answers after the read as before. *)
Theorem Read_frame (d : ResourceData.t) (c : Client.t) (s : St W) :
  let d' := (resourceAviatrixDeviceRegistrationRead d c s).1.1 in
  (∀ k, k ∉ stored_string_keys → GetString d' k = GetString d k)
  ∧ (∀ k, k ≠ "ssh_port" → GetInt d' k = GetInt d k)
  ∧ (∀ k, k ≠ "is_caag" → GetBool d' k = GetBool d k)
  ∧ ResourceData.prior d' = ResourceData.prior d
  ∧ ResourceData.planned d' = ResourceData.planned d
  ∧ (∀ k, HasChange d' k = HasChange d k).
Proof.
  intros d'. subst d'.
  pose proof (Read_run d c s) as E. cbv zeta in E. rewrite E. clear E.
  destruct (get_device _ _ _).1 as [e|found]; cbn [fst snd].
  - by destruct e.
  - split; [|split; [|split]].
    + intros k Hk. rewrite GetString_store_device.
      rewrite <- (stored_strings_dom found) in Hk.
      apply not_elem_of_dom in Hk. by rewrite Hk.
    + intros k Hk. rewrite GetInt_store_device. by rewrite decide_False.
    + intros k Hk. rewrite GetBool_store_device. by rewrite decide_False.
    + rewrite store_device_eq. done.
Qed.

(** X14.  A refresh is stable: when a read has found a device, a second
    read of the resource data it returned looks that device up by its
    name and, if the controller still answers with the same device,
    returns the same resource data and the nil error. *)
Theorem Read_twice (d : ResourceData.t) (c : Client.t) (s s' : St W)
    (found : Device.t) :
  (GetDevice c (Device.named (lookup_name d)) s).1 = inr found →
  (GetDevice c (Device.named (Device.Name found)) s').1 = inr found →
  let d' := (resourceAviatrixDeviceRegistrationRead d c s).1.1 in
  sent (resourceAviatrixDeviceRegistrationRead d' c) s'
    = [CallGetDevice (Device.named (Device.Name found))]
  ∧ (resourceAviatrixDeviceRegistrationRead d' c s').1 = (d', None).
Proof.
  rewrite !GetDevice_run. intros Hget Hget' d'. subst d'.
  pose proof (Read_run d c s) as E. cbv zeta in E. rewrite E, Hget. clear E.
  cbn [fst snd]. rewrite Read_sent, lookup_name_after_store.
  split; [done|].
  pose proof (Read_run (SetId (Device.Name found) (store_device found d)) c s') as E.
  cbv zeta in E. rewrite E, lookup_name_after_store, Hget'. clear E.
  cbn [fst]. rewrite store_device_twice, SetId_twice. reflexivity.
Qed.

(** X15.  The read that follows a successful create or update looks up
    the device that handler sent: its one request is the lookup of the
    name of the marshalled device, whether or not the resource had an
    ID before. *)
Theorem Read_after_Create_or_Update
    (d : ResourceData.t) (c : Client.t) (s s' : St W) (d' : ResourceData.t) :
  (resourceAviatrixDeviceRegistrationCreate d c s).1 = (d', None)
  ∨ (resourceAviatrixDeviceRegistrationUpdate d c s).1 = (d', None) →
  sent (resourceAviatrixDeviceRegistrationRead d' c) s'
    = [CallGetDevice
         (Device.named (Device.Name (marshalDeviceRegistrationInput d)))]
  ∧ Id d' = Device.Name (marshalDeviceRegistrationInput d).
Proof.
  intros Hdone.
  assert (d' = SetId (GetString d "name") d) as ->.
  { destruct Hdone as [Hc|Hu].
    - pose proof (Create_and_Delete_run_success d c s) as [Hcreate _].
      rewrite Hc in Hcreate. exact (Hcreate eq_refl).
    - pose proof (Update_run_success d c s) as Hupdate.
      rewrite Hu in Hupdate. exact (Hupdate eq_refl). }
  rewrite Read_sent. split; [|done].
  unfold lookup_name.
  change (GetString (SetId (GetString d "name") d) "name")
    with (GetString d "name").
  by case_decide.
Qed.

End ResourceExtras.

(** ** The further properties on the scripted controller *)

Lemma GetTags_list_size_witness :
  let tagList := (@GetTags unit (Stub.controller listing_ok) client0 tags0
                    Stub.start).1.2.1 in
  length (elems tagList) = size usr_tags0
  ∧ (tagList = None ↔ usr_tags0 = ∅)
  ∧ tagList ≠ Some [].
Proof.
  exact (@GetTags_list_size unit (Stub.controller listing_ok) client0 tags0
           Stub.start _ usr_tags0 eq_refl eq_refl eq_refl).
Defined.

Lemma GetTags_distinct_without_colon_witness :
  map_Forall (λ key _, colon_free key = true) usr_tags0
  ∧ NoDup (elems (@GetTags unit (Stub.controller listing_ok) client0 tags0
                    Stub.start).1.2.1).
Proof.
  assert (map_Forall (λ key (_ : string), colon_free key = true) usr_tags0)
    as Hfree.
  { apply (bool_decide_unpack _). vm_compute. exact I. }
  split; [exact Hfree|].
  exact (proj1 (@GetTags_distinct_without_colon unit
                  (Stub.controller listing_ok) client0 tags0 Stub.start _
                  usr_tags0 eq_refl eq_refl eq_refl
                  (λ key val Hkey, Hfree key val Hkey))).
Defined.

Lemma handlers_send_the_marshalled_device_witness :
  let dev := marshalDeviceRegistrationInput caag_upgrade_plan in
  CallUpdateDevice dev
    ∈ sent (@resourceAviatrixDeviceRegistrationUpdate unit
              (Stub.controller (Stub.ok dev1)) caag_upgrade_plan client0)
           Stub.start
  ∧ GetString caag_upgrade_plan "software_version" = "6.6"
  ∧ Device.SoftwareVersion dev = ""
  ∧ Device.IsCaag dev = false
  ∧ decimal_value (Device.SshPortStr dev) = Some (Device.SshPort dev).
Proof.
  cbv zeta.
  assert (CallUpdateDevice (marshalDeviceRegistrationInput caag_upgrade_plan)
            ∈ sent (@resourceAviatrixDeviceRegistrationUpdate unit
                      (Stub.controller (Stub.ok dev1)) caag_upgrade_plan client0)
                   Stub.start) as Hin.
  { apply (bool_decide_unpack _). vm_compute. exact I. }
  split; [exact Hin|]. split; [reflexivity|].
  pose proof (@handlers_send_the_marshalled_device unit
                (Stub.controller (Stub.ok dev1)) caag_upgrade_plan client0
                Stub.start _ (or_intror (or_introl Hin)))
    as (_ & _ & Hport & Hversion & Hcaag).
  split; [exact Hversion|]. split; [exact Hcaag|]. exact Hport.
Defined.

Lemma Read_stores_the_device_witness :
  let d' := (@resourceAviatrixDeviceRegistrationRead unit
               (Stub.controller (Stub.ok dev1)) upgrade_plan client0
               Stub.start).1.1 in
  GetString upgrade_plan "software_version" = "6.6"
  ∧ GetString d' "software_version" = "6.5"
  ∧ Id d' = "dev1"
  ∧ GetString d' "password" = "x".
Proof.
  cbv zeta. split; [reflexivity|].
  pose proof (@Read_stores_the_device unit (Stub.controller (Stub.ok dev1))
                upgrade_plan client0 Stub.start dev1 eq_refl)
    as (_ & Hversion & _ & Hid & _ & Hpassword).
  split; [exact Hversion|]. split; [exact Hid|].
  rewrite Hpassword. reflexivity.
Defined.

Lemma Read_twice_witness :
  let read := @resourceAviatrixDeviceRegistrationRead unit
                (Stub.controller (Stub.ok dev1)) in
  let d' := (read imported client0 Stub.start).1.1 in
  (read d' client0 (read imported client0 Stub.start).2).1 = (d', None).
Proof.
  cbv zeta.
  exact (proj2 (@Read_twice unit (Stub.controller (Stub.ok dev1)) imported
                  client0 Stub.start
                  (@resourceAviatrixDeviceRegistrationRead unit
                     (Stub.controller (Stub.ok dev1)) imported client0
                     Stub.start).2
                  dev1 eq_refl eq_refl)).
Defined.

Lemma Read_after_Create_or_Update_witness :
  sent (@resourceAviatrixDeviceRegistrationRead unit
          (Stub.controller (Stub.ok dev1)) (SetId "dev1" steady) client0)
       Stub.start
  = [CallGetDevice (Device.named "dev1")].
Proof.
  exact (proj1 (@Read_after_Create_or_Update unit
                  (Stub.controller (Stub.ok dev1)) steady client0 Stub.start
                  Stub.start (SetId "dev1" steady) (or_introl eq_refl))).
Defined.

(** * The handlers and the schema *)

Section SchemaFacts.
Context {W : Type} `{!Controller W}.

Lemma declared_strings :
  declared schema.TypeString credentials = stored_string_keys.
Proof. vm_cast_no_check (eq_refl stored_string_keys). Qed.

Lemma declared_ints : declared schema.TypeInt credentials = {[ "ssh_port" ]}.
Proof. vm_cast_no_check (eq_refl ({[ "ssh_port" ]} : gset string)). Qed.

Lemma declared_bools : declared schema.TypeBool credentials = {[ "is_caag" ]}.
Proof. vm_cast_no_check (eq_refl ({[ "is_caag" ]} : gset string)). Qed.

Lemma declared_input_attribute k e :
  deviceRegistrationSchema !! k = Some e → schema.Computed e = false →
  (schema.Type_ e = schema.TypeString
   ∧ k ∈ [ "name"; "public_ip"; "username"; "key_file"; "password"; "host_os";
           "address_1"; "address_2"; "city"; "state"; "country"; "zip_code";
           "description" ])
  ∨ (schema.Type_ e = schema.TypeInt ∧ k = "ssh_port").
Proof.
  intros Hk Hc. unfold deviceRegistrationSchema in Hk.
  apply elem_of_list_to_map_2 in Hk.
  repeat (apply elem_of_cons in Hk as [[= -> ->]|Hk];
          [first [ discriminate Hc
                 | left; split; [reflexivity|set_solver]
                 | right; split; reflexivity ]|]).
  by apply elem_of_nil in Hk.
Qed.

Lemma marshal_fields d1 d2 :
  marshalDeviceRegistrationInput d1 = marshalDeviceRegistrationInput d2 ↔
  GetInt d1 "ssh_port" = GetInt d2 "ssh_port"
  ∧ ∀ k, k ∈ [ "name"; "public_ip"; "username"; "key_file"; "password";
               "host_os"; "address_1"; "address_2"; "city"; "state";
               "country"; "zip_code"; "description" ] →
         GetString d1 k = GetString d2 k.
Proof.
  unfold marshalDeviceRegistrationInput. split.
  - intros [= ? ? ? ? ? ? ? ? ? ? ? ? ? ? ?]. split; [done|].
    intros k Hk.
    repeat (apply elem_of_cons in Hk as [->|Hk]; [done|]).
    by apply elem_of_nil in Hk.
  - intros [Hport Hstr]. rewrite Hport.
    rewrite (Hstr "name"), (Hstr "public_ip"), (Hstr "username"),
      (Hstr "key_file"), (Hstr "password"), (Hstr "host_os"),
      (Hstr "address_1"), (Hstr "address_2"), (Hstr "city"), (Hstr "state"),
      (Hstr "country"), (Hstr "zip_code"), (Hstr "description")
      by set_solver.
    reflexivity.
Qed.

(** X16.  The device struct the handlers marshal carries exactly the
    attributes that the schema declares and does not mark as computed:
    two resource data marshal to the same struct exactly when they agree
    on every such attribute, read at its declared type.  No undeclared
    attribute and no computed one (["software_version"], ["is_caag"])
    has any influence on it. *)
Theorem marshal_carries_the_declared_inputs (d1 d2 : ResourceData.t) :
  marshalDeviceRegistrationInput d1 = marshalDeviceRegistrationInput d2 ↔
  ∀ k e, deviceRegistrationSchema !! k = Some e → schema.Computed e = false →
         attribute d1 k (schema.Type_ e) = attribute d2 k (schema.Type_ e).
Proof.
  rewrite marshal_fields. split.
  - intros [Hport Hstr] k e Hk Hc.
    destruct (declared_input_attribute k e Hk Hc) as [[-> Hin]|[-> ->]]; simpl.
    + by rewrite (Hstr k Hin).
    + by rewrite Hport.
  - intros Hall. split.
    + assert (deviceRegistrationSchema !! "ssh_port"
              = Some {| schema.Type_ := schema.TypeInt; schema.Required := false;
                        schema.Optional := true; schema.Computed := false;
                        schema.ForceNew := false; schema.Sensitive := false;
                        schema.Default := Some (schema.VInt 22);
                        schema.DefaultFunc := None; schema.ValidateFunc := None;
                        schema.ExactlyOneOf := [];
                        schema.Description :=
                          "SSH port to use to connect to the device. Defaults to 22 if not set." |})
        as Hport by (vm_compute; reflexivity).
      specialize (Hall _ _ Hport eq_refl). simpl in Hall. by injection Hall.
    + intros k Hk.
      assert (∃ e, deviceRegistrationSchema !! k = Some e
                   ∧ schema.Computed e = false
                   ∧ schema.Type_ e = schema.TypeString) as (e & He & Hc & Hty).
      { repeat (apply elem_of_cons in Hk as [->|Hk];
                [eexists; split; [vm_compute; reflexivity|split; reflexivity]|]).
        by apply elem_of_nil in Hk. }
      specialize (Hall k e He Hc). rewrite Hty in Hall. simpl in Hall.
      by injection Hall.
Qed.

(** X17.  When the lookup of the read handler finds a device, the
    attributes the handler writes are exactly the attributes the schema
    declares, other than the two credentials of its exactly-one-of
    group, each as a value of its declared type; what had been written
    before stays written. *)
Theorem Read_writes_the_declared_attributes
    (d : ResourceData.t) (c : Client.t) (s : St W) (found : Device.t) :
  (GetDevice c (Device.named (lookup_name d)) s).1 = inr found →
  let before := ResourceData.written d in
  let after :=
    ResourceData.written (resourceAviatrixDeviceRegistrationRead d c s).1.1 in
  credentials = ["password"; "key_file"]
  ∧ dom (ResourceData.strings after)
    = declared schema.TypeString credentials ∪ dom (ResourceData.strings before)
  ∧ dom (ResourceData.ints after)
    = declared schema.TypeInt credentials ∪ dom (ResourceData.ints before)
  ∧ dom (ResourceData.bools after)
    = declared schema.TypeBool credentials ∪ dom (ResourceData.bools before).
Proof.
  rewrite GetDevice_run. intros Hget before after. subst before after.
  pose proof (Read_run d c s) as E. cbv zeta in E. rewrite E, Hget. clear E.
  cbn [fst snd]. rewrite store_device_eq.
  rewrite declared_strings, declared_ints, declared_bools.
  unfold SetId.
  cbn [ResourceData.written ResourceData.strings ResourceData.ints
       ResourceData.bools].
  split; [by vm_compute|].
  rewrite dom_union_L, stored_strings_dom, !dom_insert_L. done.
Qed.

End SchemaFacts.

Lemma Read_writes_the_declared_attributes_witness :
  let after :=
    ResourceData.written
      (@resourceAviatrixDeviceRegistrationRead unit
         (Stub.controller (Stub.ok dev1)) imported client0 Stub.start).1.1 in
  dom (ResourceData.strings after)
    = declared schema.TypeString credentials ∪ dom (ResourceData.strings no_attrs)
  ∧ dom (ResourceData.ints after)
    = declared schema.TypeInt credentials ∪ dom (ResourceData.ints no_attrs)
  ∧ dom (ResourceData.bools after)
    = declared schema.TypeBool credentials ∪ dom (ResourceData.bools no_attrs).
Proof.
  exact (proj2 (@Read_writes_the_declared_attributes unit
                  (Stub.controller (Stub.ok dev1)) imported client0
                  Stub.start dev1 eq_refl)).
Defined.
